(** * smartSugu: order, promotion and delivery workflows

    A shallow embedding of the Mongoose models and the service functions of
    the marketplace backend, with the properties of the order workflow
    (placement, cancellation, status updates), of promotions (validity,
    redemption, best-promotion selection) and of delivery acceptance.

    Conventions of the embedding:
    - a collection is a finite map from [ObjectId] to documents;
    - an [async] service function is a computation in the monad [M]: it takes
      the database, and returns what it returned or threw together with the
      database it leaves behind (a [throw] does not roll anything back);
    - counts (stock, quantity, usage counters) are integers; amounts of money
      (prices, discounts) are exact rationals in the order workflow, and the
      IEEE 754 doubles nearest to them where the code compares the amounts it
      computes (the selection of the best promotion, the validators of a
      promotion);
    - the delivery distance is a function on the real numbers;
    - [new Date()] and [Date.now()] are an argument [now] of the function that
      calls them. *)

From Stdlib Require Import ZArith QArith Lia.
From Stdlib Require Import Floats.SpecFloat.
From Stdlib Require Import Reals Lra Machin.
From stdpp Require Import gmap strings list fin_maps pretty.

Local Open Scope string_scope.
Local Open Scope list_scope.
Local Open Scope Z_scope.

Abbreviation ObjectId := N.

(** ** Errors and the service monad *)

(** The [http-status] codes the services use. *)
Inductive httpStatus := NOT_FOUND | BAD_REQUEST | CONFLICT.

(** What a function throws: [new ApiError(status, _)], a plain
    [new Error(message)], or one of the two errors of Mongoose, a
    [ValidationError] of [save] and a [CastError] of a query. The message of
    an [ApiError] is not kept. *)
Inductive error :=
  | ApiError (statusCode : httpStatus)
  | Error (message : string)
  | ValidationError
  | CastError.

(** A JavaScript [Date], through the accessors the code reads: [getTime] is
    the value dates are compared by, the others are the local calendar
    fields ([getMonth] counts from 0, [getDate] is the day of the month). *)
Record Date := {
  getTime : Z;
  getFullYear : Z;
  getMonth : Z;
  getDate : Z
}.

(** ** JavaScript numbers *)

(** A [Number] is an IEEE 754 binary64 value: 53 bits of precision, and
    rounding to the nearest value, ties to even, after each operation. *)
Module Js.
Definition number : Type := spec_float.
Definition prec : Z := 53.
Definition emax : Z := 1024.

(** The number nearest to an integer. *)
Definition ofZ (z : Z) : number := binary_normalize prec emax z 0 false.

Definition add (x y : number) : number := SFadd prec emax x y.
Definition mul (x y : number) : number := SFmul prec emax x y.
Definition div (x y : number) : number := SFdiv prec emax x y.

(** [x > y], [x >= y] and [x <= y]: all three are [false] when [x] or [y]
    is [NaN]. *)
Definition gt (x y : number) : bool := SFltb y x.
Definition ge (x y : number) : bool := SFleb y x.
Definition le (x y : number) : bool := SFleb x y.

(** The number that holds an amount: the quotient, rounded once, of the
    numerator by the denominator, which is the number nearest to the amount
    when both are below 2^53. The amount 1/10 gives the number that the
    literal [0.1] denotes. *)
Definition ofQ (q : Q) : number := div (ofZ (Qnum q)) (ofZ (Zpos (Qden q))).
End Js.

(** ** models/product.model.js *)
Module Product.
Record t := {
  merchant : ObjectId;
  name : string;
  price : Q;
  stock : Z;
  isActive : bool
}.

(** The effect of the update [{ $inc: { stock: n } }] on one document. *)
Definition inc_stock (n : Z) (p : t) : t :=
  {| merchant := merchant p; name := name p; price := price p;
     stock := stock p + n; isActive := isActive p |}.
End Product.

(** ** models/promotion.model.js *)
Module Promotion.
(** [discountType] has the schema enum ['percentage', 'fixed']. *)
Inductive discountKind := percentage | fixed.

(** An entry of [redemptionHistory], as [applyPromotion] pushes it: the
    [date] of the schema is a default and is not kept here. *)
Record redemption := {
  userId : ObjectId;
  orderId : ObjectId
}.

Record t := {
  merchant : ObjectId;
  code : string;
  discountType : discountKind;
  discountValue : Q;
  expirationDate : option Z;
  usageLimit : Z;
  usedCount : Z;
  isActive : bool;
  redemptionHistory : list redemption;
  applicableProducts : list ObjectId;
  stats_weekly : gmap string Z;
  stats_monthly : gmap string Z;
  stats_yearly : gmap string Z
}.

(** [promotionSchema.methods.isValid]. A [Date] object is truthy, so
    [!this.expirationDate] holds exactly when no date is set. *)
Definition isValid (this : t) (now : Date) : bool :=
  isActive this
  && (usageLimit this >? usedCount this)
  && match expirationDate this with
     | None => true
     | Some e => getTime now <=? e
     end.

(** [Math.ceil(now.getDate() / 7)], on an integer day of the month. *)
Definition weekOfMonth (now : Date) : Z := (getDate now + 6) / 7.

Definition currentWeek (now : Date) : string :=
  pretty (getFullYear now) +:+ "-" +:+ pretty (weekOfMonth now).
Definition currentMonth (now : Date) : string :=
  pretty (getFullYear now) +:+ "-" +:+ pretty (getMonth now + 1).
Definition currentYear (now : Date) : string :=
  pretty (getFullYear now).

(** [m.set(k, (m.get(k) || 0) + 1)] on a Mongoose map of numbers. *)
Definition bump (k : string) (m : gmap string Z) : gmap string Z :=
  <[k := default 0 (m !! k) + 1]> m.

(** [promotionSchema.methods.applyPromotion]: the outcome, and the document
    [this] as the call leaves it (the one handed to [save] on success). The
    clock is read twice: [checkedAt] inside [isValid], then [now] for the
    statistics. *)
Definition applyPromotion (this : t) (userId orderId : ObjectId)
    (checkedAt now : Date) : (error + unit) * t :=
  if negb (isValid this checkedAt) then
    (inl (Error "Promotion not valid or expired."), this)
  else
    (inr tt,
     {| merchant := merchant this; code := code this;
        discountType := discountType this;
        discountValue := discountValue this;
        expirationDate := expirationDate this;
        usageLimit := usageLimit this;
        usedCount := usedCount this + 1;
        isActive := isActive this;
        redemptionHistory :=
          redemptionHistory this
            ++ [ {| userId := userId; orderId := orderId |} ];
        applicableProducts := applicableProducts this;
        stats_weekly := bump (currentWeek now) (stats_weekly this);
        stats_monthly := bump (currentMonth now) (stats_monthly this);
        stats_yearly := bump (currentYear now) (stats_yearly this) |}).
End Promotion.

(** ** models/order.model.js *)
Module Order.
(** A line item of [products]. *)
Record item := {
  productId : ObjectId;
  quantity : Z;
  price : Q
}.

Record t := {
  client : ObjectId;
  merchant : ObjectId;
  products : list item;
  promotion : option ObjectId;
  totalPrice : Q;
  status : string;
  revenue : Q
}.

(** [products.reduce((acc, p) => acc + p.quantity * p.price, 0)], the sum
    that [calculateTotalPrice], the [pre('save')] hook and the order
    service all compute. *)
Definition sumProducts (l : list item) : Q :=
  fold_left (fun acc p => (acc + inject_Z (quantity p) * price p)%Q) l 0%Q.

(** The [pre('save')] middleware: [this.revenue] is recomputed. *)
Definition preSave (this : t) : t :=
  {| client := client this; merchant := merchant this;
     products := products this; promotion := promotion this;
     totalPrice := totalPrice this; status := status this;
     revenue := sumProducts (products this) |}.

Definition set_status (s : string) (this : t) : t :=
  {| client := client this; merchant := merchant this;
     products := products this; promotion := promotion this;
     totalPrice := totalPrice this; status := s;
     revenue := revenue this |}.

(** The values of the schema enum of [status]. *)
Definition statuses : list string :=
  ["pending"; "accepted"; "in_progress"; "completed"; "cancelled"].
End Order.

(** ** models/delivery.model.js *)
Module Delivery.
Record t := {
  order : ObjectId;
  livreur : option ObjectId;
  status : string
}.
End Delivery.

(** ** models/livreur.model.js *)
Module Livreur.
Record t := {
  user : ObjectId;
  isAvailable : bool;
  deliveriesAssigned : list ObjectId
}.
End Livreur.

(** ** models/client.model.js and models/merchant.model.js *)

(** The two models that an order refers to besides products: of their
    documents, the references to users, orders and products. *)
Module Client.
Record t := {
  user : ObjectId;
  orders : list ObjectId
}.
End Client.

Module Merchant.
Record t := {
  user : ObjectId;
  storeName : string;
  products : list ObjectId;
  orders : list ObjectId
}.
End Merchant.

(** ** Populated orders *)

(** An order after [populate('products.productId')], [populate('client')] and
    [populate('merchant')]: each of these references reads as the document it
    names, with its [_id], or as [null] when there is no such document. *)
Module PopulatedOrder.
Record item := {
  productId : option (ObjectId * Product.t);
  quantity : Z;
  price : Q
}.

Record t := {
  client : option (ObjectId * Client.t);
  merchant : option (ObjectId * Merchant.t);
  products : list item;
  promotion : option ObjectId;
  totalPrice : Q;
  status : string;
  revenue : Q
}.

(** The [pre('save')] middleware on a populated order. *)
Definition preSave (this : t) : t :=
  {| client := client this; merchant := merchant this;
     products := products this; promotion := promotion this;
     totalPrice := totalPrice this; status := status this;
     revenue :=
       fold_left (fun acc p => (acc + inject_Z (quantity p) * price p)%Q)
         (products this) 0%Q |}.

Definition set_status (s : string) (this : t) : t :=
  {| client := client this; merchant := merchant this;
     products := products this; promotion := promotion this;
     totalPrice := totalPrice this; status := s;
     revenue := revenue this |}.
End PopulatedOrder.

(** ** The database and the monad of the services *)

Record Db := {
  db_products : gmap ObjectId Product.t;
  db_promotions : gmap ObjectId Promotion.t;
  db_orders : gmap ObjectId Order.t;
  db_deliveries : gmap ObjectId Delivery.t;
  db_livreurs : gmap ObjectId Livreur.t;
  db_clients : gmap ObjectId Client.t;
  db_merchants : gmap ObjectId Merchant.t
}.

Definition set_products (f : gmap ObjectId Product.t -> gmap ObjectId Product.t)
    (db : Db) : Db :=
  {| db_products := f (db_products db); db_promotions := db_promotions db;
     db_orders := db_orders db; db_deliveries := db_deliveries db;
     db_livreurs := db_livreurs db; db_clients := db_clients db;
     db_merchants := db_merchants db |}.

Definition set_orders (f : gmap ObjectId Order.t -> gmap ObjectId Order.t)
    (db : Db) : Db :=
  {| db_products := db_products db; db_promotions := db_promotions db;
     db_orders := f (db_orders db); db_deliveries := db_deliveries db;
     db_livreurs := db_livreurs db; db_clients := db_clients db;
     db_merchants := db_merchants db |}.

Definition set_deliveries
    (f : gmap ObjectId Delivery.t -> gmap ObjectId Delivery.t) (db : Db) : Db :=
  {| db_products := db_products db; db_promotions := db_promotions db;
     db_orders := db_orders db; db_deliveries := f (db_deliveries db);
     db_livreurs := db_livreurs db; db_clients := db_clients db;
     db_merchants := db_merchants db |}.

Definition set_livreurs
    (f : gmap ObjectId Livreur.t -> gmap ObjectId Livreur.t) (db : Db) : Db :=
  {| db_products := db_products db; db_promotions := db_promotions db;
     db_orders := db_orders db; db_deliveries := db_deliveries db;
     db_livreurs := f (db_livreurs db); db_clients := db_clients db;
     db_merchants := db_merchants db |}.

(** A service call: the value returned or the error thrown, and the database
    afterwards. *)
Definition M (A : Type) : Type := Db -> (error + A) * Db.

Definition ret {A} (a : A) : M A := fun db => (inr a, db).
Definition throw {A} (e : error) : M A := fun db => (inl e, db).
Definition bind {A B} (m : M A) (k : A -> M B) : M B :=
  fun db =>
    match m db with
    | (inr a, db') => k a db'
    | (inl e, db') => (inl e, db')
    end.
Definition get {A} (f : Db -> A) : M A := fun db => (inr (f db), db).
Definition modify (f : Db -> Db) : M unit := fun db => (inr tt, f db).

Declare Scope svc_scope.
Delimit Scope svc_scope with svc.
Notation "x <- m ;; k" := (bind m (fun x => k))
  (at level 100, m at next level, right associativity) : svc_scope.
Notation "m ;;; k" := (bind m (fun _ => k))
  (at level 100, right associativity) : svc_scope.

(** A [for (const x of l) { await body(x) }] loop. *)
Fixpoint forOf {A} (l : list A) (body : A -> M unit) : M unit :=
  match l with
  | [] => ret tt
  | x :: l' => bind (body x) (fun _ => forOf l' body)
  end.

(** ** Model statics used by the services *)

Definition Product_findById (id : ObjectId) : M (option Product.t) :=
  get (fun db => db_products db !! id).

(** [Product.findByIdAndUpdate(id, { $inc: { stock: n } })]: an update in the
    database, which does nothing when no document has this id. *)
Definition Product_incStock (id : ObjectId) (n : Z) : M unit :=
  modify (set_products (alter (Product.inc_stock n) id)).

Definition Promotion_findById (id : ObjectId) : M (option Promotion.t) :=
  get (fun db => db_promotions db !! id).

Definition Order_findById (id : ObjectId) : M (option Order.t) :=
  get (fun db => db_orders db !! id).

(** [order.save()] of the document loaded under [id]: the [pre('save')] hook
    runs, then the document is written. *)
Definition Order_save (id : ObjectId) (order : Order.t) : M Order.t :=
  let saved := Order.preSave order in
  bind (modify (set_orders (insert id saved))) (fun _ => ret saved).

(** The body of a create-order request, as the validation schema accepts it. *)
Module OrderBody.
Record t := {
  merchant : ObjectId;
  products : list Order.item;
  promotion : option ObjectId;
  totalPrice : Q
}.

Definition set_totalPrice (x : Q) (b : t) : t :=
  {| merchant := merchant b; products := products b;
     promotion := promotion b; totalPrice := x |}.
End OrderBody.

(** [Order.create({ client: clientId, ...orderBody })]: [status] takes its
    default, the document is saved under the identifier [newId] the driver
    generated for it. *)
Definition Order_create (newId clientId : ObjectId) (orderBody : OrderBody.t)
  : M Order.t :=
  Order_save newId
    {| Order.client := clientId;
       Order.merchant := OrderBody.merchant orderBody;
       Order.products := OrderBody.products orderBody;
       Order.promotion := OrderBody.promotion orderBody;
       Order.totalPrice := OrderBody.totalPrice orderBody;
       Order.status := "pending";
       Order.revenue := 0%Q |}.

(** ** services/order.service.js *)

Local Open Scope svc_scope.

(** The first loop of [createOrder]: the availability of every product. *)
Definition checkAvailability (products : list Order.item) : M unit :=
  forOf products (fun item =>
    product <- Product_findById (Order.productId item) ;;
    match product with
    | None => throw (ApiError NOT_FOUND)
    | Some product =>
        if Product.stock product <? Order.quantity item
        then throw (ApiError BAD_REQUEST)
        else ret tt
    end).

(** The promotion step of [createOrder]: it yields [orderBody] with its
    [totalPrice] field reduced. *)
Definition applyOrderPromotion (now : Date) (orderBody : OrderBody.t)
  : M OrderBody.t :=
  match OrderBody.promotion orderBody with
  | None => ret orderBody
  | Some id =>
      promotion <- Promotion_findById id ;;
      match promotion with
      | None => throw (ApiError NOT_FOUND)
      | Some promotion =>
          if negb (Promotion.isValid promotion now)
          then throw (ApiError BAD_REQUEST)
          else
            let t := OrderBody.totalPrice orderBody in
            ret (OrderBody.set_totalPrice
                   (t - t * Promotion.discountValue promotion / 100)%Q
                   orderBody)
      end
  end.

Definition createOrder (now : Date) (newId clientId : ObjectId)
    (orderBody : OrderBody.t) : M Order.t :=
  checkAvailability (OrderBody.products orderBody) ;;;
  orderBody <- applyOrderPromotion now orderBody ;;
  let totalPrice := Order.sumProducts (OrderBody.products orderBody) in
  let orderBody := OrderBody.set_totalPrice totalPrice orderBody in
  order <- Order_create newId clientId orderBody ;;
  forOf (Order.products order) (fun item =>
    Product_incStock (Order.productId item) (- Order.quantity item)) ;;;
  ret order.

(** [populate] of one reference against the collection of its model. *)
Definition populate {A} (collection : gmap ObjectId A) (id : ObjectId)
  : option (ObjectId * A) :=
  (fun doc => (id, doc)) <$> collection !! id.

(** The three [populate] calls of [getOrderById] on one order. *)
Definition populateOrder (db : Db) (order : Order.t) : PopulatedOrder.t :=
  {| PopulatedOrder.client := populate (db_clients db) (Order.client order);
     PopulatedOrder.merchant :=
       populate (db_merchants db) (Order.merchant order);
     PopulatedOrder.products :=
       map (fun item =>
              {| PopulatedOrder.productId :=
                   populate (db_products db) (Order.productId item);
                 PopulatedOrder.quantity := Order.quantity item;
                 PopulatedOrder.price := Order.price item |})
         (Order.products order);
     PopulatedOrder.promotion := Order.promotion order;
     PopulatedOrder.totalPrice := Order.totalPrice order;
     PopulatedOrder.status := Order.status order;
     PopulatedOrder.revenue := Order.revenue order |}.

Definition getOrderById (orderId : ObjectId) : M PopulatedOrder.t :=
  order <- (order <- Order_findById orderId ;;
            get (fun db => populateOrder db <$> order)) ;;
  match order with
  | None => throw (ApiError NOT_FOUND)
  | Some order => ret order
  end.

(** [Product.findByIdAndUpdate(ref, { $inc: { stock: n } })] with a populated
    reference for identifier: the query takes the [_id] of the document, and
    matches nothing when the reference is [null]. *)
Definition Product_incStockOf (ref : option (ObjectId * Product.t)) (n : Z)
  : M unit :=
  match ref with
  | Some (id, _) => Product_incStock id n
  | None => ret tt
  end.

Definition Order_set_revenue (x : Q) (this : Order.t) : Order.t :=
  {| Order.client := Order.client this; Order.merchant := Order.merchant this;
     Order.products := Order.products this;
     Order.promotion := Order.promotion this;
     Order.totalPrice := Order.totalPrice this;
     Order.status := Order.status this; Order.revenue := x |}.

(** [order.save()] of the populated order loaded under [id], after its
    [status] was set: the [pre('save')] hook runs, then the paths that were
    set since the load, [status] and [revenue], are written to the stored
    document; the populated references are not written. *)
Definition PopulatedOrder_save (id : ObjectId) (order : PopulatedOrder.t)
  : M PopulatedOrder.t :=
  let saved := PopulatedOrder.preSave order in
  modify (set_orders
            (alter (fun stored =>
                      Order_set_revenue (PopulatedOrder.revenue saved)
                        (Order.set_status (PopulatedOrder.status saved) stored))
               id)) ;;;
  ret saved.

Definition includes (l : list string) (s : string) : bool :=
  existsb (String.eqb s) l.

Definition updateOrderStatus (orderId : ObjectId) (newStatus : string)
  : M Order.t :=
  order <- Order_findById orderId ;;
  match order with
  | None => throw (ApiError NOT_FOUND)
  | Some order =>
      if negb (includes
                 ["pending"; "accepted"; "in_progress"; "completed";
                  "cancelled"] newStatus)
      then throw (ApiError BAD_REQUEST)
      else Order_save orderId (Order.set_status newStatus order)
  end.

Definition cancelOrder (orderId : ObjectId) : M PopulatedOrder.t :=
  order <- getOrderById orderId ;;
  if String.eqb (PopulatedOrder.status order) "completed"
     || String.eqb (PopulatedOrder.status order) "cancelled"
  then throw (ApiError BAD_REQUEST)
  else
    let order := PopulatedOrder.set_status "cancelled" order in
    forOf (PopulatedOrder.products order) (fun item =>
      Product_incStockOf (PopulatedOrder.productId item)
        (PopulatedOrder.quantity item)) ;;;
    PopulatedOrder_save orderId order.

(** ** services/livreur.service.js *)

Definition Livreur_findById (id : ObjectId) : M (option Livreur.t) :=
  get (fun db => db_livreurs db !! id).

Definition Delivery_findById (id : ObjectId) : M (option Delivery.t) :=
  get (fun db => db_deliveries db !! id).

Definition Delivery_save (id : ObjectId) (d : Delivery.t) : M unit :=
  modify (set_deliveries (insert id d)).

Definition Livreur_save (id : ObjectId) (l : Livreur.t) : M unit :=
  modify (set_livreurs (insert id l)).

Definition acceptDelivery (livreurId deliveryId : ObjectId) : M Delivery.t :=
  livreur <- Livreur_findById livreurId ;;
  delivery <- Delivery_findById deliveryId ;;
  match livreur, delivery with
  | Some livreur, Some delivery =>
      if negb (String.eqb (Delivery.status delivery) "pending")
      then throw (ApiError CONFLICT)
      else
        let delivery :=
          {| Delivery.order := Delivery.order delivery;
             Delivery.livreur := Some livreurId;
             Delivery.status := "in_progress" |} in
        let livreur :=
          {| Livreur.user := Livreur.user livreur;
             Livreur.isAvailable := Livreur.isAvailable livreur;
             Livreur.deliveriesAssigned :=
               Livreur.deliveriesAssigned livreur ++ [deliveryId] |} in
        Delivery_save deliveryId delivery ;;;
        Livreur_save livreurId livreur ;;;
        ret delivery
  | _, _ => throw (ApiError NOT_FOUND)
  end.

(** ** services/promotion.service.js *)

(** The filter of the query
    [{ isActive: true, applicableProducts: { $in: ids } }]. *)
Definition matchesQuery (ids : list ObjectId) (promo : Promotion.t) : bool :=
  Promotion.isActive promo
  && existsb (fun a => existsb (N.eqb a) ids)
       (Promotion.applicableProducts promo).

(** [Promotion.find(...)] over [collection], the documents of the promotions
    collection in the order in which the database returns them. *)
Definition applicablePromotions (collection : list Promotion.t)
    (products : list Order.item) : list Promotion.t :=
  List.filter (matchesQuery (map Order.productId products)) collection.

(** The discount one promotion yields in the loop of [findBestPromotion],
    computed on numbers as the code computes it: for the percentage type,
    the sum of [price * quantity] over the products, from 0 and from left to
    right, times [discountValue], divided by 100. *)
Definition discountOf (products : list Order.item) (promo : Promotion.t)
  : Js.number :=
  match Promotion.discountType promo with
  | Promotion.percentage =>
      Js.div
        (Js.mul
           (fold_left
              (fun sum p =>
                 Js.add sum
                   (Js.mul (Js.ofQ (Order.price p))
                      (Js.ofZ (Order.quantity p))))
              products (Js.ofZ 0))
           (Js.ofQ (Promotion.discountValue promo)))
        (Js.ofZ 100)
  | Promotion.fixed => Js.ofQ (Promotion.discountValue promo)
  end.

(** One turn of the loop, on the pair [(bestPromotion, maxDiscount)]. *)
Definition bestStep (products : list Order.item)
    (acc : option Promotion.t * Js.number) (promo : Promotion.t)
  : option Promotion.t * Js.number :=
  let discount := discountOf products promo in
  if Js.gt discount (snd acc) then (Some promo, discount) else acc.

Definition findBestPromotion (collection : list Promotion.t)
    (userId : ObjectId) (products : list Order.item) : option Promotion.t :=
  fst (fold_left (bestStep products)
         (applicablePromotions collection products) (None, Js.ofZ 0)).

(** ** The rest of services/order.service.js *)

Definition calculateOrderTotal (products : list Order.item) : M Q :=
  let total :=
    fold_left
      (fun acc item => (acc + inject_Z (Order.quantity item) * Order.price item)%Q)
      products 0%Q in
  ret total.

Definition isOrderAvailable (orderId : ObjectId) : M bool :=
  order <- Order_findById orderId ;;
  match order with
  | None => ret false
  | Some order =>
      if negb (String.eqb (Order.status order) "pending")
      then ret false
      else ret true
  end.

(** ** Methods of models/order.model.js *)

Definition Order_set_totalPrice (x : Q) (this : Order.t) : Order.t :=
  {| Order.client := Order.client this; Order.merchant := Order.merchant this;
     Order.products := Order.products this;
     Order.promotion := Order.promotion this;
     Order.totalPrice := x; Order.status := Order.status this;
     Order.revenue := Order.revenue this |}.

(** [orderSchema.methods.calculateTotalPrice]: the total it returns, and the
    document as the call leaves it. *)
Definition Order_calculateTotalPrice (this : Order.t) : Q * Order.t :=
  let total :=
    fold_left
      (fun acc product =>
         (acc + inject_Z (Order.quantity product) * Order.price product)%Q)
      (Order.products this) 0%Q in
  (total, Order_set_totalPrice total this).

(** [orderSchema.methods.validateStock]. [toString] renders the identifier
    that the message of the error quotes. *)
Definition Order_validateStock (toString : ObjectId -> string)
    (this : Order.t) : M unit :=
  forOf (Order.products this) (fun item =>
    product <- Product_findById (Order.productId item) ;;
    if match product with
       | None => true
       | Some product => Product.stock product <? Order.quantity item
       end
    then throw (Error ("Product " +:+ toString (Order.productId item)
                         +:+ " does not have enough stock"))
    else ret tt).

(** [orderSchema.methods.updateStatus], on the document [this] loaded under
    [id]. The method has no [return]: it yields nothing. *)
Definition Order_updateStatus (id : ObjectId) (this : Order.t)
    (newStatus : string) : M unit :=
  if negb (includes
             ["pending"; "accepted"; "in_progress"; "completed"; "cancelled"]
             newStatus)
  then throw (Error "Invalid order status")
  else
    Order_save id (Order.set_status newStatus this) ;;;
    ret tt.

(** ** The rest of services/livreur.service.js *)

(** [delivery && delivery.status === 'pending']: [None] stands for the
    [null] that the expression yields when there is no such delivery. *)
Definition isDeliveryAvailable (deliveryId : ObjectId) : M (option bool) :=
  delivery <- Delivery_findById deliveryId ;;
  ret (match delivery with
       | None => None
       | Some delivery => Some (String.eqb (Delivery.status delivery) "pending")
       end).

(** The truth value of the result of [isDeliveryAvailable] in a condition. *)
Definition truthy (v : option bool) : bool := default false v.

(** [Livreur.findById(id).populate('deliveriesAssigned')], then the populated
    array: each identifier is replaced by its delivery, and the identifiers
    of deliveries that no longer exist are dropped. *)
Definition getAssignedDeliveries (livreurId : ObjectId)
  : M (list Delivery.t) :=
  livreur <- Livreur_findById livreurId ;;
  match livreur with
  | None => throw (ApiError NOT_FOUND)
  | Some livreur =>
      get (fun db =>
             omap (fun id => db_deliveries db !! id)
               (Livreur.deliveriesAssigned livreur))
  end.

(** ** The courier controller: the accept-delivery route *)
Module livreurController.
(** The handler of the accept-delivery route: what it sends back or throws.
    Logging and the timing wrapper [trackPerformance] have no effect on the
    database nor on the result. *)
Definition acceptDelivery (userId deliveryId : ObjectId) : M Delivery.t :=
  isAvailable <- isDeliveryAvailable deliveryId ;;
  if negb (truthy isAvailable)
  then throw (ApiError CONFLICT)
  else acceptDelivery userId deliveryId.
End livreurController.

(** ** The order controller: the update-status route *)
Module orderController.
Section handlers.
(** [orderService.getOrderStatus] and [notificationService.notifyClient]: the
    handler calls them, and the sources of the services do not hold them.
    [toString] renders the identifier that the notification quotes. *)
Variable getOrderStatus : ObjectId -> M string.
Variable notifyClient : ObjectId -> string -> M unit.
Variable toString : ObjectId -> string.

(** The handler of the update-status route, the one caller of
    [updateOrderStatus]: what it sends back or throws. Logging and the
    timing wrapper [trackPerformance] have no effect on the database nor on
    the result. *)
Definition updateOrderStatus (orderId : ObjectId) (status : string)
  : M Order.t :=
  currentStatus <- getOrderStatus orderId ;;
  if String.eqb currentStatus "completed"
     || String.eqb currentStatus "cancelled"
  then throw (ApiError BAD_REQUEST)
  else
    updatedOrder <- updateOrderStatus orderId status ;;
    notifyClient (Order.client updatedOrder)
      ("Votre commande : OrderID=" +:+ toString orderId
         +:+ " est maintenant " +:+ status) ;;;
    ret updatedOrder.
End handlers.
End orderController.

(** ** Methods of models/promotion.model.js and models/product.model.js *)

Definition Promotion_set_isActive (b : bool) (this : Promotion.t)
  : Promotion.t :=
  {| Promotion.merchant := Promotion.merchant this;
     Promotion.code := Promotion.code this;
     Promotion.discountType := Promotion.discountType this;
     Promotion.discountValue := Promotion.discountValue this;
     Promotion.expirationDate := Promotion.expirationDate this;
     Promotion.usageLimit := Promotion.usageLimit this;
     Promotion.usedCount := Promotion.usedCount this;
     Promotion.isActive := b;
     Promotion.redemptionHistory := Promotion.redemptionHistory this;
     Promotion.applicableProducts := Promotion.applicableProducts this;
     Promotion.stats_weekly := Promotion.stats_weekly this;
     Promotion.stats_monthly := Promotion.stats_monthly this;
     Promotion.stats_yearly := Promotion.stats_yearly this |}.

(** [productSchema.methods.isAvailable]. *)
Definition Product_isAvailable (this : Product.t) : bool :=
  (Product.stock this >? 0) && Product.isActive this.

Definition Product_set_isActive (b : bool) (this : Product.t) : Product.t :=
  {| Product.merchant := Product.merchant this;
     Product.name := Product.name this; Product.price := Product.price this;
     Product.stock := Product.stock this; Product.isActive := b |}.

(** ** The rest of services/promotion.service.js *)

Definition set_promotions
    (f : gmap ObjectId Promotion.t -> gmap ObjectId Promotion.t) (db : Db)
  : Db :=
  {| db_products := db_products db; db_promotions := f (db_promotions db);
     db_orders := db_orders db; db_deliveries := db_deliveries db;
     db_livreurs := db_livreurs db; db_clients := db_clients db;
     db_merchants := db_merchants db |}.

(** The validators that [save] runs on a promotion: [code] is required, so
    not empty; [discountValue] must not be [<= 0]; [expirationDate], when
    there is one, must not be before [Date.now()]. The other paths of the
    schema hold a value of their type in every document. *)
Definition Promotion_validate (now : Date) (this : Promotion.t) : bool :=
  negb (String.eqb (Promotion.code this) "")
  && negb (Js.le (Js.ofQ (Promotion.discountValue this)) (Js.ofZ 0))
  && match Promotion.expirationDate this with
     | None => true
     | Some e => negb (e <? getTime now)
     end.

(** [promotion.save()] of the document loaded under [id]: the validators
    run, and the document is written when they pass. *)
Definition Promotion_save (now : Date) (id : ObjectId)
    (promotion : Promotion.t) : M unit :=
  if Promotion_validate now promotion
  then modify (set_promotions (insert id promotion))
  else throw ValidationError.



Definition togglePromotionStatus (now : Date) (promotionId : ObjectId)
    (isActive : bool) : M Promotion.t :=
  promotion <- Promotion_findById promotionId ;;
  match promotion with
  | None => throw (ApiError NOT_FOUND)
  | Some promotion =>
      let promotion := Promotion_set_isActive isActive promotion in
      Promotion_save now promotionId promotion ;;;
      ret promotion
  end.

Definition deletePromotion (promotionId : ObjectId) : M unit :=
  promotion <- Promotion_findById promotionId ;;
  match promotion with
  | None => throw (ApiError NOT_FOUND)
  | Some _ => modify (set_promotions (delete promotionId))
  end.

(** The time values of [Date]: [new Date(t)] is a date when [t] is at most
    8.64e15 milliseconds from the epoch on either side, and an invalid date
    otherwise. *)
Definition Date_valid (t : Z) : bool :=
  (-8640000000000000 <=? t) && (t <=? 8640000000000000).

(** [getExpiringPromotions], for a whole number of days: the query
    [{ isActive: true, expirationDate: { $lte: expirationThreshold } }] over
    [collection], which a promotion without expiration date does not match.
    With a threshold that is not a date the query throws a [CastError]. *)
Definition getExpiringPromotions (collection : list Promotion.t) (now : Date)
    (days : Z) : error + list Promotion.t :=
  let expirationThreshold := getTime now + days * 24 * 60 * 60 * 1000 in
  if Date_valid expirationThreshold
  then
    inr (List.filter
           (fun promo =>
              Promotion.isActive promo
              && match Promotion.expirationDate promo with
                 | None => false
                 | Some e => e <=? expirationThreshold
                 end)
           collection)
  else inl CastError.

(** ** services/merchant.service.js *)

(** [Product.findOne({ _id: productId, merchant: merchantId })]. *)
Definition Product_findOwned (productId merchantId : ObjectId)
  : M (option Product.t) :=
  get (fun db =>
         match db_products db !! productId with
         | Some product =>
             if N.eqb (Product.merchant product) merchantId
             then Some product else None
         | None => None
         end).

Definition deactivateProduct (merchantId productId : ObjectId)
  : M Product.t :=
  product <- Product_findOwned productId merchantId ;;
  match product with
  | None => throw (ApiError NOT_FOUND)
  | Some product =>
      let product := Product_set_isActive false product in
      modify (set_products (insert productId product)) ;;;
      ret product
  end.

(** ** models/delivery.model.js: the distance of a delivery *)

(** A pair of coordinates, in degrees. *)
Module Coordinates.
Record t := {
  latitude : R;
  longitude : R
}.
End Coordinates.

Section Distance.
Local Open Scope R_scope.


End Distance.

(** ** Sequences of calls *)





(** A string without the character [-]. *)
Fixpoint dashFree (s : string) : bool :=
  match s with
  | EmptyString => true
  | String c s' => negb (String.eqb (String c EmptyString) "-") && dashFree s'
  end.

(** A promotion whose uses have reached its limit. *)
Definition exhausted (this : Promotion.t) : Promotion.t :=
  {| Promotion.merchant := Promotion.merchant this;
     Promotion.code := Promotion.code this;
     Promotion.discountType := Promotion.discountType this;
     Promotion.discountValue := Promotion.discountValue this;
     Promotion.expirationDate := Promotion.expirationDate this;
     Promotion.usageLimit := Promotion.usageLimit this;
     Promotion.usedCount := Promotion.usageLimit this;
     Promotion.isActive := Promotion.isActive this;
     Promotion.redemptionHistory := Promotion.redemptionHistory this;
     Promotion.applicableProducts := Promotion.applicableProducts this;
     Promotion.stats_weekly := Promotion.stats_weekly this;
     Promotion.stats_monthly := Promotion.stats_monthly this;
     Promotion.stats_yearly := Promotion.stats_yearly this |}.

(** ** Vocabulary of the statements *)

(** The product of a line item exists and has enough stock for it. *)
Definition inStock (db : Db) (item : Order.item) : Prop :=
  exists p, db_products db !! Order.productId item = Some p
            /\ Order.quantity item <= Product.stock p.

(** The product of a line item exists and the item asks for more than its
    stock. *)
Definition insufficient (db : Db) (item : Order.item) : Prop :=
  exists p, db_products db !! Order.productId item = Some p
            /\ Product.stock p < Order.quantity item.

(** The line item refers to no product of the database. *)
Definition missing (db : Db) (item : Order.item) : Prop :=
  db_products db !! Order.productId item = None.

(** The request names no promotion, or one that exists and is valid. *)
Definition promotionAccepted (db : Db) (now : Date) (body : OrderBody.t)
  : Prop :=
  match OrderBody.promotion body with
  | None => True
  | Some id => exists promo, db_promotions db !! id = Some promo
                             /\ Promotion.isValid promo now = true
  end.




(** The sum of [f] over the line items that refer to product [id]. *)
Fixpoint sumFor (f : Order.item -> Z) (id : ObjectId) (l : list Order.item)
  : Z :=
  match l with
  | [] => 0
  | item :: l' =>
      (if N.eqb (Order.productId item) id then f item else 0) + sumFor f id l'
  end.

(** The quantity of product [id] that a list of line items orders. *)
Definition orderedQuantity (id : ObjectId) (l : list Order.item) : Z :=
  sumFor Order.quantity id l.

(** The total the specification describes for an order: the sum of
    quantity times price, minus the discount of the promotion applied (a
    percentage of that sum, or a fixed amount). *)
Definition specTotalPrice (products : list Order.item)
    (promo : option Promotion.t) : Q :=
  let total := Order.sumProducts products in
  match promo with
  | None => total
  | Some p =>
      match Promotion.discountType p with
      | Promotion.percentage =>
          (total - total * Promotion.discountValue p / 100)%Q
      | Promotion.fixed => (total - Promotion.discountValue p)%Q
      end
  end.

(** The stock updates of a loop over line items, as one update of the
    products collection. *)
Definition incAll (f : Order.item -> Z) (l : list Order.item)
    (m : gmap ObjectId Product.t) : gmap ObjectId Product.t :=
  fold_left
    (fun m item => alter (Product.inc_stock (f item)) (Order.productId item) m)
    l m.

(** ** Sample data *)
Module Sample.
Definition now : Date :=
  {| getTime := 1793577600000; getFullYear := 2026; getMonth := 10;
     getDate := 2 |}.

Definition tea : Product.t :=
  {| Product.merchant := 9%N; Product.name := "tea"; Product.price := 10%Q;
     Product.stock := 5; Product.isActive := true |}.

(** A valid promotion of 10 percent on product 1. *)
Definition tenPercent : Promotion.t :=
  {| Promotion.merchant := 9%N; Promotion.code := "TEN";
     Promotion.discountType := Promotion.percentage;
     Promotion.discountValue := 10%Q;
     Promotion.expirationDate := None;
     Promotion.usageLimit := 3; Promotion.usedCount := 0;
     Promotion.isActive := true;
     Promotion.redemptionHistory := [];
     Promotion.applicableProducts := [1%N];
     Promotion.stats_weekly := ∅; Promotion.stats_monthly := ∅;
     Promotion.stats_yearly := ∅ |}.

(** One product (id 1, five in stock) and one promotion (id 7). *)
Definition db : Db :=
  {| db_products := {[ 1%N := tea ]};
     db_promotions := {[ 7%N := tenPercent ]};
     db_orders := ∅; db_deliveries := ∅; db_livreurs := ∅;
     db_clients := ∅; db_merchants := ∅ |}.

(** Two units of product 1 at 10 each, with promotion 7. *)
Definition twoTeas : OrderBody.t :=
  {| OrderBody.merchant := 9%N;
     OrderBody.products :=
       [ {| Order.productId := 1%N; Order.quantity := 2;
            Order.price := 10%Q |} ];
     OrderBody.promotion := Some 7%N;
     OrderBody.totalPrice := 20%Q |}.

(** A line item for a product that does not exist, then six units of
    product 1, of which there are five. *)
Definition ghostThenSixTeas : OrderBody.t :=
  {| OrderBody.merchant := 9%N;
     OrderBody.products :=
       [ {| Order.productId := 2%N; Order.quantity := 1;
            Order.price := 1%Q |};
         {| Order.productId := 1%N; Order.quantity := 6;
            Order.price := 10%Q |} ];
     OrderBody.promotion := None;
     OrderBody.totalPrice := 61%Q |}.
(** An order of two units of product 1, in a given status. *)
Definition order (status : string) : Order.t :=
  {| Order.client := 50%N; Order.merchant := 9%N;
     Order.products :=
       [ {| Order.productId := 1%N; Order.quantity := 2;
            Order.price := 10%Q |} ];
     Order.promotion := None; Order.totalPrice := 20%Q;
     Order.status := status; Order.revenue := 20%Q |}.

Definition delivery : Delivery.t :=
  {| Delivery.order := 100%N; Delivery.livreur := None;
     Delivery.status := "pending" |}.

Definition courier : Livreur.t :=
  {| Livreur.user := 60%N; Livreur.isAvailable := true;
     Livreur.deliveriesAssigned := [] |}.

Definition merchant : Merchant.t :=
  {| Merchant.user := 61%N; Merchant.storeName := "Sugu";
     Merchant.products := [1%N]; Merchant.orders := [100%N] |}.

(** The database [db] with order 100 in the given status, its delivery
    200, still pending, courier 300 and merchant 9; the client of the order
    has no document. *)
Definition shop (status : string) : Db :=
  {| db_products := {[ 1%N := tea ]};
     db_promotions := {[ 7%N := tenPercent ]};
     db_orders := {[ 100%N := order status ]};
     db_deliveries := {[ 200%N := delivery ]};
     db_livreurs := {[ 300%N := courier ]};
     db_clients := ∅;
     db_merchants := {[ 9%N := merchant ]} |}.


(** For [getOrderStatus], the reading of the status of the stored order,
    and for [notifyClient], a notification that touches no collection. *)
Definition getOrderStatus (orderId : ObjectId) : M string :=
  order <- Order_findById orderId ;;
  match order with
  | None => throw (ApiError NOT_FOUND)
  | Some order => ret (Order.status order)
  end.

Definition notifyClient (clientId : ObjectId) (message : string) : M unit :=
  ret tt.

(** The promotion of 10 percent with an expiration date on 3 February
    2026. *)
Definition expired : Promotion.t :=
  {| Promotion.merchant := 9%N; Promotion.code := "FEB";
     Promotion.discountType := Promotion.percentage;
     Promotion.discountValue := 10%Q;
     Promotion.expirationDate := Some 1770076800000;
     Promotion.usageLimit := 3; Promotion.usedCount := 0;
     Promotion.isActive := true;
     Promotion.redemptionHistory := [];
     Promotion.applicableProducts := [1%N];
     Promotion.stats_weekly := ∅; Promotion.stats_monthly := ∅;
     Promotion.stats_yearly := ∅ |}.

(** Three hundredths off product 1, whatever the order. *)
Definition threeCents : Promotion.t :=
  {| Promotion.merchant := 9%N; Promotion.code := "CENTS";
     Promotion.discountType := Promotion.fixed;
     Promotion.discountValue := (3 # 100)%Q;
     Promotion.expirationDate := None;
     Promotion.usageLimit := 3; Promotion.usedCount := 0;
     Promotion.isActive := true;
     Promotion.redemptionHistory := [];
     Promotion.applicableProducts := [1%N];
     Promotion.stats_weekly := ∅; Promotion.stats_monthly := ∅;
     Promotion.stats_yearly := ∅ |}.

(** One unit of product 1 at 0.1 and one at 0.2. *)
Definition smallChange : list Order.item :=
  [ {| Order.productId := 1%N; Order.quantity := 1;
       Order.price := (1 # 10)%Q |};
    {| Order.productId := 1%N; Order.quantity := 1;
       Order.price := (2 # 10)%Q |} ].

(** One unit of product 1 given away. *)
Definition freeTea : list Order.item :=
  [ {| Order.productId := 1%N; Order.quantity := 1; Order.price := 0%Q |} ].
(** 3 February 2026, in the sixth week of the year. *)
Definition feb3 : Date :=
  {| getTime := 1770076800000; getFullYear := 2026; getMonth := 1;
     getDate := 3 |}.
End Sample.

(** * Properties *)

(** ** Promotions: validity and redemption *)

(** C4. [isValid] returns [true] exactly when the promotion is active, its
    [usedCount] is strictly below its [usageLimit], and either it has no
    expiration date or the current time is at or before that date. *)
Theorem isValid_iff (this : Promotion.t) (now : Date) :
  Promotion.isValid this now = true <->
  Promotion.isActive this = true
  /\ Promotion.usedCount this < Promotion.usageLimit this
  /\ (Promotion.expirationDate this = None
      \/ exists e, Promotion.expirationDate this = Some e /\ getTime now <= e).
Proof.
  unfold Promotion.isValid.
  rewrite !andb_true_iff, Z.gtb_lt.
  destruct (Promotion.expirationDate this) as [e|].
  - rewrite Z.leb_le. split.
    + intros [[Ha Hu] He]. repeat split; try assumption.
      right. exists e. split; [reflexivity | assumption].
    + intros (Ha & Hu & [Hn | (e' & He' & Hle)]); [discriminate |].
      injection He' as <-. repeat split; assumption.
  - split.
    + intros [[Ha Hu] _]. repeat split; try assumption. left. reflexivity.
    + intros (Ha & Hu & _). repeat split; assumption.
Qed.

(** The three ways [isValid] is [false] that the specification lists. *)
Lemma isValid_false_cases (this : Promotion.t) (now : Date) :
  Promotion.isActive this = false
  \/ Promotion.usedCount this = Promotion.usageLimit this
  \/ (exists e, Promotion.expirationDate this = Some e /\ e < getTime now) ->
  Promotion.isValid this now = false.
Proof.
  unfold Promotion.isValid. intros [H | [H | (e & H & Hlt)]].
  - rewrite H. reflexivity.
  - rewrite H, Z.gtb_ltb, Z.ltb_irrefl, andb_false_r. reflexivity.
  - rewrite H. apply andb_false_intro2. apply Z.leb_gt. exact Hlt.
Qed.


Lemma lookup_bump (k k' : string) (m : gmap string Z) :
  Promotion.bump k m !! k'
  = if decide (k = k') then Some (default 0 (m !! k) + 1) else m !! k'.
Proof. unfold Promotion.bump. apply lookup_insert. Qed.

(** A valid promotion is redeemed: one more use, one more entry in the
    history, and one more in each of the three counters of the period of
    [now]; every other field and every other counter is kept. *)
Lemma applyPromotion_valid (this : Promotion.t) (userId orderId : ObjectId)
    (checkedAt now : Date) :
  Promotion.isValid this checkedAt = true ->
  exists this',
    Promotion.applyPromotion this userId orderId checkedAt now = (inr tt, this')
    /\ Promotion.usedCount this' = Promotion.usedCount this + 1
    /\ Promotion.redemptionHistory this'
       = Promotion.redemptionHistory this
           ++ [ {| Promotion.userId := userId; Promotion.orderId := orderId |} ]
    /\ Promotion.stats_weekly this'
       = Promotion.bump (Promotion.currentWeek now) (Promotion.stats_weekly this)
    /\ Promotion.stats_monthly this'
       = Promotion.bump (Promotion.currentMonth now)
           (Promotion.stats_monthly this)
    /\ Promotion.stats_yearly this'
       = Promotion.bump (Promotion.currentYear now) (Promotion.stats_yearly this)
    /\ Promotion.isActive this' = Promotion.isActive this
    /\ Promotion.usageLimit this' = Promotion.usageLimit this
    /\ Promotion.expirationDate this' = Promotion.expirationDate this
    /\ Promotion.discountType this' = Promotion.discountType this
    /\ Promotion.discountValue this' = Promotion.discountValue this.
Proof.
  intros H. unfold Promotion.applyPromotion. rewrite H. simpl.
  eexists. split; [reflexivity |]. simpl. repeat split.
Qed.

(** [Math.ceil(d / 7)] for a day of the month: the index of the week within
    the month, between 1 and 5. *)
Lemma weekOfMonth_spec (now : Date) :
  1 <= getDate now <= 31 ->
  1 <= Promotion.weekOfMonth now <= 5
  /\ 7 * (Promotion.weekOfMonth now - 1) < getDate now
     <= 7 * Promotion.weekOfMonth now.
Proof.
  intros H. unfold Promotion.weekOfMonth.
  pose proof (Z.div_mod (getDate now + 6) 7 ltac:(lia)) as Hd.
  pose proof (Z.mod_pos_bound (getDate now + 6) 7 ltac:(lia)) as Hm.
  lia.
Qed.

(** C8. Two redemptions of one promotion, on 3 February 2026 and on
    2 November 2026 (weeks 6 and 45 of the year), are both accepted; each
    adds one use and one entry to the history, and the monthly counters are
    kept under [2026-2] and [2026-11], the yearly one under [2026]. The
    weekly key, though, is [2026-1] both times, the year and the week of the
    month, so that the two redemptions share one weekly counter, and nothing
    is counted under a key of the week of the year. *)
Theorem applyPromotion_weekly_key_shared :
  Promotion.currentWeek Sample.feb3 = "2026-1"
  /\ Promotion.currentWeek Sample.now = "2026-1"
  /\ exists p1 p2,
       Promotion.applyPromotion Sample.tenPercent 50%N 100%N
         Sample.feb3 Sample.feb3 = (inr tt, p1)
       /\ Promotion.applyPromotion p1 51%N 101%N Sample.now Sample.now
          = (inr tt, p2)
       /\ Promotion.usedCount p2 = 2
       /\ length (Promotion.redemptionHistory p2) = 2%nat
       /\ map_to_list (Promotion.stats_weekly p2) = [("2026-1", 2)]
       /\ Promotion.stats_weekly p2 !! "2026-W6" = None
       /\ Promotion.stats_weekly p2 !! "2026-W45" = None
       /\ Promotion.stats_weekly p2 !! "2026-6" = None
       /\ Promotion.stats_weekly p2 !! "2026-45" = None
       /\ Promotion.stats_monthly p2 !! "2026-2" = Some 1
       /\ Promotion.stats_monthly p2 !! "2026-11" = Some 1
       /\ Promotion.stats_yearly p2 !! "2026" = Some 2.
Proof.
  split; [vm_compute; reflexivity |]. split; [vm_compute; reflexivity |].
  eexists. eexists. split; [vm_compute; reflexivity |].
  split; [vm_compute; reflexivity |].
  repeat split; vm_compute; reflexivity.
Qed.

(** ** The service monad and its loops *)

Lemma bind_run {A B} (m : M A) (k : A -> M B) (db db' : Db) (a : A) :
  m db = (inr a, db') -> bind m k db = k a db'.
Proof. intros H. unfold bind. rewrite H. reflexivity. Qed.

Lemma bind_fail {A B} (m : M A) (k : A -> M B) (db db' : Db) (e : error) :
  m db = (inl e, db') -> bind m k db = (inl e, db').
Proof. intros H. unfold bind. rewrite H. reflexivity. Qed.

Lemma Order_save_run (id : ObjectId) (order : Order.t) (db : Db) :
  Order_save id order db
  = (inr (Order.preSave order),
     set_orders (insert id (Order.preSave order)) db).
Proof. reflexivity. Qed.

(** A loop of stock updates over line items is one update of the products
    collection. *)
Lemma forOf_incStock (f : Order.item -> Z) (l : list Order.item) (db : Db) :
  forOf l (fun item => Product_incStock (Order.productId item) (f item)) db
  = (inr tt, set_products (incAll f l) db).
Proof.
  revert db. induction l as [| item l IH]; intros db.
  - destruct db. reflexivity.
  - cbn [forOf]. unfold bind at 1. cbn [Product_incStock modify].
    rewrite IH. destruct db. reflexivity.
Qed.

Lemma inc_stock_inc_stock (n m : Z) (p : Product.t) :
  Product.inc_stock m (Product.inc_stock n p) = Product.inc_stock (n + m) p.
Proof. destruct p. unfold Product.inc_stock. cbn. f_equal. lia. Qed.

Lemma inc_stock_0 (p : Product.t) : Product.inc_stock 0 p = p.
Proof. destruct p. unfold Product.inc_stock. cbn. f_equal. lia. Qed.

(** After the loop, each product has moved by the sum of the increments of
    the line items that refer to it; the other fields are kept, and no
    product appears or disappears. *)
Lemma lookup_incAll (f : Order.item -> Z) (l : list Order.item)
    (m : gmap ObjectId Product.t) (id : ObjectId) :
  incAll f l m !! id = Product.inc_stock (sumFor f id l) <$> m !! id.
Proof.
  revert m. induction l as [| item l IH]; intros m.
  - cbn. destruct (m !! id) as [p|]; cbn; [| reflexivity].
    rewrite inc_stock_0. reflexivity.
  - change (incAll f (item :: l) m)
      with (incAll f l
              (alter (Product.inc_stock (f item)) (Order.productId item) m)).
    rewrite IH. cbn [sumFor]. rewrite lookup_alter.
    destruct (N.eqb_spec (Order.productId item) id) as [-> | Hne].
    + rewrite decide_True by reflexivity.
      destruct (m !! id) as [p|]; cbn; [| reflexivity].
      rewrite inc_stock_inc_stock. reflexivity.
    + rewrite decide_False by congruence. cbn. reflexivity.
Qed.

Lemma sumFor_opp (id : ObjectId) (l : list Order.item) :
  sumFor (fun item => - Order.quantity item) id l = - orderedQuantity id l.
Proof.
  unfold orderedQuantity. induction l as [| item l IH]; cbn; [reflexivity |].
  rewrite IH. destruct (N.eqb _ _); lia.
Qed.

(** When no other line item refers to the same product, the quantity ordered
    of that product is the quantity of the line item. *)
Lemma orderedQuantity_NoDup (l : list Order.item) (item : Order.item) :
  NoDup (map Order.productId l) -> In item l ->
  orderedQuantity (Order.productId item) l = Order.quantity item.
Proof.
  unfold orderedQuantity.
  induction l as [| x l IH]; intros Hnd Hin; [destruct Hin |].
  cbn in Hnd. apply NoDup_cons in Hnd as [Hx Hnd].
  assert (Hzero : forall y, ~ In (Order.productId y) (map Order.productId l) ->
                   sumFor Order.quantity (Order.productId y) l = 0).
  { clear. intros y. induction l as [| z l IHl]; cbn; intros Hy; [reflexivity |].
    destruct (N.eqb_spec (Order.productId z) (Order.productId y)) as [E | E].
    - exfalso. apply Hy. left. exact E.
    - rewrite IHl; [reflexivity |]. intros H. apply Hy. right. exact H. }
  cbn. destruct Hin as [-> | Hin].
  - rewrite N.eqb_refl. rewrite Hzero; [lia |].
    intros H. apply Hx. apply list_elem_of_In. exact H.
  - destruct (N.eqb_spec (Order.productId x) (Order.productId item)) as [E | E].
    + exfalso. apply Hx. rewrite E. apply list_elem_of_In.
      apply in_map. exact Hin.
    + rewrite IH by assumption. lia.
Qed.

(** ** Order placement *)

Lemma inStock_dec (db : Db) (item : Order.item) :
  inStock db item \/ insufficient db item \/ missing db item.
Proof.
  unfold inStock, insufficient, missing.
  destruct (db_products db !! Order.productId item) as [p|] eqn:E.
  - destruct (Z_lt_le_dec (Product.stock p) (Order.quantity item)).
    + right. left. eauto.
    + left. eauto.
  - right. right. reflexivity.
Qed.

(** The availability loop reads the database and never writes it; it
    succeeds when every line item is in stock, and otherwise throws for the
    first line item that is not: [BAD_REQUEST] when that item asks for more
    than the stock, [NOT_FOUND] when its product does not exist. *)
Lemma checkAvailability_cases (l : list Order.item) (db : Db) :
  (Forall (inStock db) l /\ checkAvailability l db = (inr tt, db))
  \/ (exists l1 item l2,
        l = l1 ++ item :: l2 /\ Forall (inStock db) l1 /\ insufficient db item
        /\ checkAvailability l db = (inl (ApiError BAD_REQUEST), db))
  \/ (exists l1 item l2,
        l = l1 ++ item :: l2 /\ Forall (inStock db) l1 /\ missing db item
        /\ checkAvailability l db = (inl (ApiError NOT_FOUND), db)).
Proof.
  induction l as [| x l IH].
  - left. split; [constructor | reflexivity].
  - assert (Hstep : forall r,
      checkAvailability l db = r ->
      inStock db x -> checkAvailability (x :: l) db = r).
    { intros r Hr (p & Hp & Hle). unfold checkAvailability in *.
      cbn [forOf]. unfold bind at 1 2. unfold Product_findById, get.
      rewrite Hp. destruct (Z.ltb_spec (Product.stock p) (Order.quantity x));
        [lia |]. exact Hr. }
    destruct (inStock_dec db x) as [Hx | [Hx | Hx]].
    + destruct IH as [[Hall Hr] | [(l1 & it & l2 & -> & Hall & Hit & Hr)
                                  | (l1 & it & l2 & -> & Hall & Hit & Hr)]].
      * left. split; [constructor; assumption | auto].
      * right. left. exists (x :: l1), it, l2.
        repeat split; [constructor; assumption | assumption | auto].
      * right. right. exists (x :: l1), it, l2.
        repeat split; [constructor; assumption | assumption | auto].
    + right. left. exists [], x, l. repeat split; [constructor | assumption |].
      destruct Hx as (p & Hp & Hlt). unfold checkAvailability.
      cbn [forOf]. unfold bind at 1 2. unfold Product_findById, get.
      rewrite Hp. destruct (Z.ltb_spec (Product.stock p) (Order.quantity x));
        [reflexivity | lia].
    + right. right. exists [], x, l. repeat split; [constructor | assumption |].
      unfold missing in Hx. unfold checkAvailability.
      cbn [forOf]. unfold bind at 1 2. unfold Product_findById, get.
      rewrite Hx. reflexivity.
Qed.

Lemma inStock_not_insufficient (db : Db) (item : Order.item) :
  inStock db item -> insufficient db item -> False.
Proof.
  intros (p & Hp & Hle) (q & Hq & Hlt). rewrite Hp in Hq.
  injection Hq as <-. lia.
Qed.

Lemma inStock_not_missing (db : Db) (item : Order.item) :
  inStock db item -> missing db item -> False.
Proof. intros (p & Hp & _) Hm. unfold missing in Hm. congruence. Qed.

(** The promotion step reads the database and never writes it, and it keeps
    the line items, the merchant and the promotion of the request. *)
Lemma applyOrderPromotion_cases (now : Date) (body : OrderBody.t) (db : Db) :
  (promotionAccepted db now body
   /\ exists body',
        applyOrderPromotion now body db = (inr body', db)
        /\ OrderBody.products body' = OrderBody.products body
        /\ OrderBody.merchant body' = OrderBody.merchant body
        /\ OrderBody.promotion body' = OrderBody.promotion body)
  \/ (~ promotionAccepted db now body
      /\ exists s, applyOrderPromotion now body db = (inl (ApiError s), db)).
Proof.
  unfold applyOrderPromotion, promotionAccepted.
  destruct (OrderBody.promotion body) as [id|] eqn:Eid.
  - unfold bind, Promotion_findById, get.
    destruct (db_promotions db !! id) as [promo|] eqn:Epromo.
    + destruct (Promotion.isValid promo now) eqn:Ev; cbn.
      * left. split; [eauto |]. eexists. split; [reflexivity |].
        cbn. auto.
      * right. split; [| eauto].
        intros (promo' & H & Hv). congruence.
    + right. split; [| eexists; reflexivity].
      intros (promo' & H & _). discriminate.
  - left. split; [exact I |]. exists body. auto.
Qed.

(** A request whose line items are all in stock and whose promotion, if any,
    is accepted, is placed: the order is saved under [newId] with status
    [pending] and with the sum of quantity times price as its total, whatever
    the promotion; each product loses the quantity ordered of it; nothing
    else in the database changes. *)
Lemma createOrder_placed (now : Date) (newId clientId : ObjectId)
    (body : OrderBody.t) (db : Db) :
  Forall (inStock db) (OrderBody.products body) ->
  promotionAccepted db now body ->
  exists order db',
    createOrder now newId clientId body db = (inr order, db')
    /\ Order.totalPrice order = Order.sumProducts (OrderBody.products body)
    /\ Order.products order = OrderBody.products body
    /\ Order.promotion order = OrderBody.promotion body
    /\ Order.client order = clientId
    /\ Order.status order = "pending"
    /\ db_orders db' = <[newId := order]> (db_orders db)
    /\ (forall id,
          db_products db' !! id
          = Product.inc_stock (- orderedQuantity id (OrderBody.products body))
              <$> db_products db !! id)
    /\ db_promotions db' = db_promotions db
    /\ db_deliveries db' = db_deliveries db
    /\ db_livreurs db' = db_livreurs db.
Proof.
  intros Hstock Hpromo.
  destruct (checkAvailability_cases (OrderBody.products body) db)
    as [[_ Hrun] | [(l1 & it & l2 & Hl & Hl1 & Hit & _)
                   | (l1 & it & l2 & Hl & Hl1 & Hit & _)]].
  - destruct (applyOrderPromotion_cases now body db)
      as [(_ & body' & Hrun' & Hprod & Hmerch & Hprom) | [Hno _]];
      [| contradiction].
    unfold createOrder.
    rewrite (bind_run _ _ _ _ _ Hrun), (bind_run _ _ _ _ _ Hrun').
    cbv zeta. unfold Order_create.
    erewrite bind_run by apply Order_save_run.
    erewrite bind_run by apply forOf_incStock.
    eexists. eexists. split; [reflexivity |].
    cbn -[incAll]. rewrite Hprod, Hprom.
    repeat split; try reflexivity.
    intros id. rewrite lookup_incAll, sumFor_opp. reflexivity.
  - exfalso. rewrite Hl in Hstock. apply Forall_app in Hstock as [_ H].
    apply Forall_cons in H as [H _].
    exact (inStock_not_insufficient _ _ H Hit).
  - exfalso. rewrite Hl in Hstock. apply Forall_app in Hstock as [_ H].
    apply Forall_cons in H as [H _].
    exact (inStock_not_missing _ _ H Hit).
Qed.

(** A request that fails one of the two validations is refused with an
    [ApiError], and the database is left as it was. *)
Lemma createOrder_refused (now : Date) (newId clientId : ObjectId)
    (body : OrderBody.t) (db : Db) :
  ~ (Forall (inStock db) (OrderBody.products body)
     /\ promotionAccepted db now body) ->
  exists s, createOrder now newId clientId body db = (inl (ApiError s), db).
Proof.
  intros Hno.
  destruct (checkAvailability_cases (OrderBody.products body) db)
    as [[Hall Hrun] | [(l1 & it & l2 & _ & _ & _ & Hrun)
                      | (l1 & it & l2 & _ & _ & _ & Hrun)]].
  - destruct (applyOrderPromotion_cases now body db)
      as [(Hacc & _) | (_ & s & Hrun')]; [tauto |].
    exists s. unfold createOrder.
    rewrite (bind_run _ _ _ _ _ Hrun). exact (bind_fail _ _ _ _ _ Hrun').
  - exists BAD_REQUEST. exact (bind_fail _ _ _ _ _ Hrun).
  - exists NOT_FOUND. exact (bind_fail _ _ _ _ _ Hrun).
Qed.

(** C1. At a request for two units at 10 each with a valid promotion of 10
    percent, everything in stock, the order is placed and the stock of the
    product goes from 5 to 3, but the total saved is 20, the undiscounted
    sum, where the specification gives 18: the discount is taken off the
    total of the request, which the sum of the line items then replaces. *)
Theorem createOrder_drops_discount :
  Forall (inStock Sample.db) (OrderBody.products Sample.twoTeas)
  /\ promotionAccepted Sample.db Sample.now Sample.twoTeas
  /\ exists order db',
       createOrder Sample.now 100%N 50%N Sample.twoTeas Sample.db
       = (inr order, db')
       /\ db_orders db' !! 100%N = Some order
       /\ (Order.totalPrice order == 20)%Q
       /\ (specTotalPrice (OrderBody.products Sample.twoTeas)
             (Some Sample.tenPercent) == 18)%Q
       /\ Product.stock <$> db_products Sample.db !! 1%N = Some 5
       /\ Product.stock <$> db_products db' !! 1%N = Some 3.
Proof.
  split; [| split].
  - repeat constructor. exists Sample.tea. split; [reflexivity | cbn; lia].
  - exists Sample.tenPercent. split; reflexivity.
  - eexists. eexists. split; [vm_compute; reflexivity |].
    repeat split; vm_compute; reflexivity.
Qed.

(** Two decompositions of a list of line items at its first line item that
    is not in stock agree. *)
Lemma first_not_inStock_unique (db : Db) (l1 l1' l2 l2' : list Order.item)
    (x x' : Order.item) :
  l1 ++ x :: l2 = l1' ++ x' :: l2' ->
  Forall (inStock db) l1 -> ~ inStock db x ->
  Forall (inStock db) l1' -> ~ inStock db x' ->
  x = x'.
Proof.
  revert l1'. induction l1 as [| a l1 IH]; intros [| a' l1'] E H1 Hx H1' Hx'.
  - cbn in E. congruence.
  - cbn in E. injection E as -> _.
    apply Forall_cons in H1' as [Ha _]. contradiction.
  - cbn in E. injection E as -> _.
    apply Forall_cons in H1 as [Ha _]. contradiction.
  - cbn in E. injection E as -> E.
    apply Forall_cons in H1 as [_ H1]. apply Forall_cons in H1' as [_ H1'].
    eauto.
Qed.

(** C2, amended. A request with a line item that asks for more than the
    stock of its product is refused, no order is saved and no stock changes.
    The error is [BAD_REQUEST], unless a line item whose product does not
    exist comes before the first one that lacks stock: then it is
    [NOT_FOUND]. *)
Theorem createOrder_insufficient_stock (now : Date) (newId clientId : ObjectId)
    (body : OrderBody.t) (db : Db) :
  Exists (insufficient db) (OrderBody.products body) ->
  exists s,
    createOrder now newId clientId body db = (inl (ApiError s), db)
    /\ (s = BAD_REQUEST \/ s = NOT_FOUND)
    /\ (s = NOT_FOUND <->
        exists l1 item l2,
          OrderBody.products body = l1 ++ item :: l2
          /\ Forall (inStock db) l1 /\ missing db item).
Proof.
  intros Hex.
  destruct (checkAvailability_cases (OrderBody.products body) db)
    as [[Hall _] | [(l1 & it & l2 & Hl & Hl1 & Hit & Hrun)
                   | (l1 & it & l2 & Hl & Hl1 & Hit & Hrun)]].
  - exfalso. apply Exists_exists in Hex as (x & Hin & Hx).
    rewrite Forall_forall in Hall.
    apply (inStock_not_insufficient db x); [| exact Hx].
    apply Hall. exact Hin.
  - exists BAD_REQUEST. split; [exact (bind_fail _ _ _ _ _ Hrun) |].
    split; [left; reflexivity |]. split; [discriminate |].
    intros (l1' & it' & l2' & Hl' & Hl1' & Hit'). exfalso.
    rewrite Hl in Hl'.
    assert (it = it') as <-.
    { apply (first_not_inStock_unique db l1 l1' l2 l2'); try assumption.
      - intros H. exact (inStock_not_insufficient _ _ H Hit).
      - intros H. exact (inStock_not_missing _ _ H Hit'). }
    destruct Hit as (p & Hp & _). unfold missing in Hit'. congruence.
  - exists NOT_FOUND. split; [exact (bind_fail _ _ _ _ _ Hrun) |].
    split; [right; reflexivity |]. split; [| reflexivity].
    intros _. exists l1, it, l2. auto.
Qed.

(** The error is [BAD_REQUEST] whenever every line item refers to a product
    that exists. *)
Lemma createOrder_insufficient_stock_all_found (now : Date)
    (newId clientId : ObjectId) (body : OrderBody.t) (db : Db) :
  Exists (insufficient db) (OrderBody.products body) ->
  Forall (fun item => ~ missing db item) (OrderBody.products body) ->
  createOrder now newId clientId body db = (inl (ApiError BAD_REQUEST), db).
Proof.
  intros Hex Hfound.
  destruct (checkAvailability_cases (OrderBody.products body) db)
    as [[Hall _] | [(l1 & it & l2 & Hl & Hl1 & Hit & Hrun)
                   | (l1 & it & l2 & Hl & Hl1 & Hit & Hrun)]].
  - exfalso. apply Exists_exists in Hex as (x & Hin & Hx).
    rewrite Forall_forall in Hall.
    exact (inStock_not_insufficient db x (Hall x Hin) Hx).
  - exact (bind_fail _ _ _ _ _ Hrun).
  - exfalso. rewrite Hl in Hfound. apply Forall_app in Hfound as [_ H].
    apply Forall_cons in H as [H _]. exact (H Hit).
Qed.

Lemma sample_insufficient :
  Exists (insufficient Sample.db) (OrderBody.products Sample.ghostThenSixTeas).
Proof.
  apply Exists_cons_tl, Exists_cons_hd.
  exists Sample.tea. split; [reflexivity | cbn; lia].
Qed.

(** At a request whose first line item refers to a product that does not
    exist and whose second asks for six units of a product with five in
    stock, the refusal is [NOT_FOUND], found through the theorem. *)
Lemma createOrder_insufficient_stock_witness :
  exists s,
    createOrder Sample.now 100%N 50%N Sample.ghostThenSixTeas Sample.db
    = (inl (ApiError s), Sample.db)
    /\ (s = BAD_REQUEST \/ s = NOT_FOUND)
    /\ (s = NOT_FOUND <->
        exists l1 item l2,
          OrderBody.products Sample.ghostThenSixTeas = l1 ++ item :: l2
          /\ Forall (inStock Sample.db) l1 /\ missing Sample.db item).
Proof.
  apply (createOrder_insufficient_stock Sample.now 100%N 50%N
           Sample.ghostThenSixTeas Sample.db).
  exact sample_insufficient.
Defined.

(** C2 as stated fails: the request above has a line item short of stock and
    is refused with [NOT_FOUND], not [BAD_REQUEST]. *)
Lemma createOrder_insufficient_not_bad_request :
  Exists (insufficient Sample.db) (OrderBody.products Sample.ghostThenSixTeas)
  /\ createOrder Sample.now 100%N 50%N Sample.ghostThenSixTeas Sample.db
     = (inl (ApiError NOT_FOUND), Sample.db)
  /\ ApiError NOT_FOUND <> ApiError BAD_REQUEST.
Proof.
  split; [exact sample_insufficient |].
  split; [vm_compute; reflexivity | discriminate].
Qed.

(** C10. Placing an order never writes the promotions collection: whether
    the request is accepted or refused, with or without a promotion, every
    promotion document (its [usedCount], its history, its statistics) is
    after the call what it was before. *)
Theorem createOrder_keeps_promotions (now : Date) (newId clientId : ObjectId)
    (body : OrderBody.t) (db : Db) :
  db_promotions (snd (createOrder now newId clientId body db))
  = db_promotions db.
Proof.
  destruct (checkAvailability_cases (OrderBody.products body) db)
    as [[Hall _] | [(l1 & it & l2 & _ & _ & _ & Hrun)
                   | (l1 & it & l2 & _ & _ & _ & Hrun)]].
  - destruct (applyOrderPromotion_cases now body db)
      as [(Hacc & _) | (Hno & _)].
    + destruct (createOrder_placed now newId clientId body db Hall Hacc)
        as (order & db' & -> & H). cbn. tauto.
    + destruct (createOrder_refused now newId clientId body db) as (s & ->);
        [tauto | reflexivity].
  - unfold createOrder. rewrite (bind_fail _ _ _ _ _ Hrun). reflexivity.
  - unfold createOrder. rewrite (bind_fail _ _ _ _ _ Hrun). reflexivity.
Qed.

(** In particular, an order placed with a valid promotion leaves that
    promotion with the [usedCount] and the history it had. *)
Lemma createOrder_promotion_not_redeemed (now : Date)
    (newId clientId id : ObjectId) (body : OrderBody.t) (db : Db) :
  Forall (inStock db) (OrderBody.products body) ->
  promotionAccepted db now body ->
  OrderBody.promotion body = Some id ->
  db_promotions (snd (createOrder now newId clientId body db)) !! id
  = db_promotions db !! id.
Proof.
  intros Hall Hacc _.
  destruct (createOrder_placed now newId clientId body db Hall Hacc)
    as (order & db' & -> & _ & _ & _ & _ & _ & _ & _ & Hpromo & _).
  cbn [snd]. rewrite Hpromo. reflexivity.
Qed.

(** In terms of one line item: when no other line item of the request refers
    to the same product, placing the order takes from the product exactly
    the quantity of that line item. *)
Lemma createOrder_takes_line_item (now : Date) (newId clientId : ObjectId)
    (body : OrderBody.t) (db : Db) (item : Order.item) (p : Product.t) :
  Forall (inStock db) (OrderBody.products body) ->
  promotionAccepted db now body ->
  NoDup (map Order.productId (OrderBody.products body)) ->
  In item (OrderBody.products body) ->
  db_products db !! Order.productId item = Some p ->
  exists p',
    db_products (snd (createOrder now newId clientId body db))
      !! Order.productId item = Some p'
    /\ Product.stock p' = Product.stock p - Order.quantity item.
Proof.
  intros Hall Hacc Hnd Hin Hp.
  destruct (createOrder_placed now newId clientId body db Hall Hacc)
    as (order & db' & -> & _ & _ & _ & _ & _ & _ & Hstock & _).
  cbn [snd]. rewrite Hstock, Hp. cbn.
  eexists. split; [reflexivity |].
  rewrite orderedQuantity_NoDup by assumption. cbn. lia.
Qed.

(** ** Order lifecycle *)

Lemma includes_In (l : list string) (s : string) :
  includes l s = true <-> In s l.
Proof.
  unfold includes. rewrite existsb_exists. split.
  - intros (x & Hin & Heq). apply String.eqb_eq in Heq. subst. exact Hin.
  - intros Hin. exists s. split; [exact Hin | apply String.eqb_refl].
Qed.

Lemma getOrderById_run (orderId : ObjectId) (order : Order.t) (db : Db) :
  db_orders db !! orderId = Some order ->
  getOrderById orderId db = (inr (populateOrder db order), db).
Proof.
  intros H. unfold getOrderById, bind, Order_findById, get. rewrite H.
  reflexivity.
Qed.

(** The restocking loop of [cancelOrder] over line items that were populated
    against [db0], run on a database [db] that holds the same products: the
    stock updates of the line items, those of products that do not exist
    having no effect. *)
Lemma forOf_incStockOf (l : list Order.item) (db0 db : Db) :
  (forall id, db_products db0 !! id = None -> db_products db !! id = None) ->
  forOf
    (map (fun item =>
            {| PopulatedOrder.productId :=
                 populate (db_products db0) (Order.productId item);
               PopulatedOrder.quantity := Order.quantity item;
               PopulatedOrder.price := Order.price item |}) l)
    (fun item =>
       Product_incStockOf (PopulatedOrder.productId item)
         (PopulatedOrder.quantity item)) db
  = (inr tt, set_products (incAll Order.quantity l) db).
Proof.
  revert db. induction l as [| item l IH]; intros db Hdom.
  - destruct db. reflexivity.
  - cbn [map forOf PopulatedOrder.productId PopulatedOrder.quantity].
    unfold bind at 1, populate.
    destruct (db_products db0 !! Order.productId item) as [p |] eqn:E.
    + cbn [fmap option_fmap option_map Product_incStockOf Product_incStock
           modify].
      rewrite IH.
      * destruct db. reflexivity.
      * intros id Hid. cbn. apply lookup_alter_None. apply Hdom. exact Hid.
    + cbn [fmap option_fmap option_map Product_incStockOf ret].
      rewrite IH by exact Hdom. unfold set_products.
      change (incAll Order.quantity (item :: l) (db_products db))
        with (incAll Order.quantity l
                (alter (Product.inc_stock (Order.quantity item))
                   (Order.productId item) (db_products db))).
      rewrite (alter_id' _ (db_products db)) by (apply Hdom; exact E).
      reflexivity.
Qed.

Lemma populated_revenue (db : Db) (order : Order.t) (s : string) :
  PopulatedOrder.revenue
    (PopulatedOrder.preSave
       (PopulatedOrder.set_status s (populateOrder db order)))
  = Order.sumProducts (Order.products order).
Proof.
  cbn. unfold Order.sumProducts. generalize 0%Q.
  induction (Order.products order) as [| x l IH]; intros a; [reflexivity |].
  cbn. apply IH.
Qed.

(** The two runs of [cancelOrder] on an order that exists. *)
Lemma cancelOrder_refused_run (orderId : ObjectId) (order : Order.t) (db : Db) :
  db_orders db !! orderId = Some order ->
  Order.status order = "completed" \/ Order.status order = "cancelled" ->
  cancelOrder orderId db = (inl (ApiError BAD_REQUEST), db).
Proof.
  intros Hfind H. unfold cancelOrder.
  rewrite (bind_run _ _ _ _ _ (getOrderById_run _ _ _ Hfind)).
  cbn [populateOrder PopulatedOrder.status].
  replace (_ || _) with true; [reflexivity |].
  symmetry. apply orb_true_iff.
  destruct H as [-> | ->]; [left | right]; reflexivity.
Qed.

Lemma cancelOrder_accepted_run (orderId : ObjectId) (order : Order.t)
    (db : Db) :
  db_orders db !! orderId = Some order ->
  Order.status order <> "completed" ->
  Order.status order <> "cancelled" ->
  cancelOrder orderId db
  = (inr (PopulatedOrder.preSave
            (PopulatedOrder.set_status "cancelled" (populateOrder db order))),
     set_orders
       (insert orderId (Order.preSave (Order.set_status "cancelled" order)))
       (set_products (incAll Order.quantity (Order.products order)) db)).
Proof.
  intros Hfind H1 H2. unfold cancelOrder.
  rewrite (bind_run _ _ _ _ _ (getOrderById_run _ _ _ Hfind)).
  cbn [populateOrder PopulatedOrder.status].
  replace (_ || _) with false.
  2:{ symmetry. apply orb_false_iff.
      split; apply String.eqb_neq; assumption. }
  cbv zeta.
  cbn [PopulatedOrder.set_status PopulatedOrder.products].
  erewrite bind_run by (apply forOf_incStockOf; intros id Hid; exact Hid).
  unfold PopulatedOrder_save, bind, modify, ret. f_equal.
  rewrite (populated_revenue db order "cancelled").
  unfold set_orders at 1. cbn [db_orders set_products].
  rewrite (alter_alt_Some _ _ _ _ Hfind). reflexivity.
Qed.

(** The two runs of [updateOrderStatus] on an order that exists. *)
Lemma updateOrderStatus_refused_run (orderId : ObjectId) (newStatus : string)
    (order : Order.t) (db : Db) :
  db_orders db !! orderId = Some order ->
  includes Order.statuses newStatus = false ->
  updateOrderStatus orderId newStatus db = (inl (ApiError BAD_REQUEST), db).
Proof.
  intros Hfind Hin.
  assert (Hf : Order_findById orderId db = (inr (Some order), db)).
  { unfold Order_findById, get. rewrite Hfind. reflexivity. }
  unfold updateOrderStatus. rewrite (bind_run _ _ _ _ _ Hf).
  fold Order.statuses. rewrite Hin. reflexivity.
Qed.

Lemma updateOrderStatus_accepted_run (orderId : ObjectId) (newStatus : string)
    (order : Order.t) (db : Db) :
  db_orders db !! orderId = Some order ->
  includes Order.statuses newStatus = true ->
  let saved := Order.preSave (Order.set_status newStatus order) in
  updateOrderStatus orderId newStatus db
  = (inr saved, set_orders (insert orderId saved) db).
Proof.
  intros Hfind Hin.
  assert (Hf : Order_findById orderId db = (inr (Some order), db)).
  { unfold Order_findById, get. rewrite Hfind. reflexivity. }
  cbv zeta. unfold updateOrderStatus. rewrite (bind_run _ _ _ _ _ Hf).
  fold Order.statuses. rewrite Hin. cbn [negb].
  apply Order_save_run.
Qed.

(** C3. For an order that exists: when its status is [completed] or
    [cancelled], [cancelOrder] throws [BAD_REQUEST] and leaves the database,
    order and stocks, as it was. In any other status the stored order gets
    the status [cancelled], its line items, total, client, merchant and
    promotion being kept and its revenue recomputed by the [pre('save')]
    hook, and every product has its stock raised by the quantity that the
    line items of the order hold of it, the rest of the product and of the
    database being kept. The order returned has the
    status [cancelled] and the line items of the stored order, each with the
    product document as it was before the call, or [null] for a product that
    does not exist. *)
Theorem cancelOrder_spec (orderId : ObjectId) (order : Order.t) (db : Db) :
  db_orders db !! orderId = Some order ->
  (Order.status order = "completed" \/ Order.status order = "cancelled" ->
   cancelOrder orderId db = (inl (ApiError BAD_REQUEST), db))
  /\ (Order.status order <> "completed" ->
      Order.status order <> "cancelled" ->
      exists returned stored db',
        cancelOrder orderId db = (inr returned, db')
        /\ db_orders db' = <[orderId := stored]> (db_orders db)
        /\ Order.status stored = "cancelled"
        /\ Order.products stored = Order.products order
        /\ Order.totalPrice stored = Order.totalPrice order
        /\ Order.client stored = Order.client order
        /\ Order.merchant stored = Order.merchant order
        /\ Order.promotion stored = Order.promotion order
        /\ Order.revenue stored = Order.sumProducts (Order.products order)
        /\ (forall id,
              db_products db' !! id
              = (fun p =>
                   {| Product.merchant := Product.merchant p;
                      Product.name := Product.name p;
                      Product.price := Product.price p;
                      Product.stock :=
                        Product.stock p
                        + orderedQuantity id (Order.products order);
                      Product.isActive := Product.isActive p |})
                  <$> db_products db !! id)
        /\ db_promotions db' = db_promotions db
        /\ db_deliveries db' = db_deliveries db
        /\ db_livreurs db' = db_livreurs db
        /\ db_clients db' = db_clients db
        /\ db_merchants db' = db_merchants db
        /\ PopulatedOrder.status returned = "cancelled"
        /\ PopulatedOrder.totalPrice returned = Order.totalPrice order
        /\ PopulatedOrder.products returned
           = map (fun item =>
                    {| PopulatedOrder.productId :=
                         (fun p => (Order.productId item, p))
                           <$> db_products db !! Order.productId item;
                       PopulatedOrder.quantity := Order.quantity item;
                       PopulatedOrder.price := Order.price item |})
               (Order.products order)
        /\ PopulatedOrder.client returned
           = (fun c => (Order.client order, c))
               <$> db_clients db !! Order.client order
        /\ PopulatedOrder.merchant returned
           = (fun m => (Order.merchant order, m))
               <$> db_merchants db !! Order.merchant order).
Proof.
  intros Hfind. split.
  - intros H. unfold cancelOrder.
    rewrite (bind_run _ _ _ _ _ (getOrderById_run _ _ _ Hfind)).
    cbn [populateOrder PopulatedOrder.status].
    replace (_ || _) with true; [reflexivity |].
    symmetry. apply orb_true_iff.
    destruct H as [-> | ->]; [left | right]; reflexivity.
  - intros H1 H2.
    rewrite (cancelOrder_accepted_run orderId order db Hfind H1 H2).
    eexists. eexists. eexists. split; [reflexivity |].
    cbn -[incAll]. repeat split; try reflexivity.
    intros id. rewrite lookup_incAll.
    destruct (db_products db !! id) as [p |]; reflexivity.
Qed.

(** The theorem at a pending order of two units of a product with five in
    stock. *)
Lemma cancelOrder_spec_witness :
  (Order.status (Sample.order "pending") = "completed"
   \/ Order.status (Sample.order "pending") = "cancelled" ->
   cancelOrder 100%N (Sample.shop "pending")
   = (inl (ApiError BAD_REQUEST), Sample.shop "pending"))
  /\ (Order.status (Sample.order "pending") <> "completed" ->
      Order.status (Sample.order "pending") <> "cancelled" ->
      exists returned stored db',
        cancelOrder 100%N (Sample.shop "pending") = (inr returned, db')
        /\ db_orders db'
           = <[100%N := stored]> (db_orders (Sample.shop "pending"))
        /\ Order.status stored = "cancelled"
        /\ Order.products stored = Order.products (Sample.order "pending")
        /\ Order.totalPrice stored = Order.totalPrice (Sample.order "pending")
        /\ Order.client stored = Order.client (Sample.order "pending")
        /\ Order.merchant stored = Order.merchant (Sample.order "pending")
        /\ Order.promotion stored = Order.promotion (Sample.order "pending")
        /\ Order.revenue stored
           = Order.sumProducts (Order.products (Sample.order "pending"))
        /\ (forall id,
              db_products db' !! id
              = (fun p =>
                   {| Product.merchant := Product.merchant p;
                      Product.name := Product.name p;
                      Product.price := Product.price p;
                      Product.stock :=
                        Product.stock p
                        + orderedQuantity id
                            (Order.products (Sample.order "pending"));
                      Product.isActive := Product.isActive p |})
                  <$> db_products (Sample.shop "pending") !! id)
        /\ db_promotions db' = db_promotions (Sample.shop "pending")
        /\ db_deliveries db' = db_deliveries (Sample.shop "pending")
        /\ db_livreurs db' = db_livreurs (Sample.shop "pending")
        /\ db_clients db' = db_clients (Sample.shop "pending")
        /\ db_merchants db' = db_merchants (Sample.shop "pending")
        /\ PopulatedOrder.status returned = "cancelled"
        /\ PopulatedOrder.totalPrice returned
           = Order.totalPrice (Sample.order "pending")
        /\ PopulatedOrder.products returned
           = map (fun item =>
                    {| PopulatedOrder.productId :=
                         (fun p => (Order.productId item, p))
                           <$> db_products (Sample.shop "pending")
                               !! Order.productId item;
                       PopulatedOrder.quantity := Order.quantity item;
                       PopulatedOrder.price := Order.price item |})
               (Order.products (Sample.order "pending"))
        /\ PopulatedOrder.client returned
           = (fun c => (Order.client (Sample.order "pending"), c))
               <$> db_clients (Sample.shop "pending")
                   !! Order.client (Sample.order "pending")
        /\ PopulatedOrder.merchant returned
           = (fun m => (Order.merchant (Sample.order "pending"), m))
               <$> db_merchants (Sample.shop "pending")
                   !! Order.merchant (Sample.order "pending")).
Proof.
  apply (cancelOrder_spec 100%N (Sample.order "pending")
           (Sample.shop "pending")).
  reflexivity.
Defined.

(** The stock of the sample: cancelling the pending order of two units takes
    the stock of product 1 from five to seven. *)
Lemma cancelOrder_sample_stock :
  Product.stock
    <$> db_products (snd (cancelOrder 100%N (Sample.shop "pending"))) !! 1%N
  = Some 7.
Proof. vm_compute. reflexivity. Qed.

(** An order whose product no longer exists is cancelled all the same: the
    order returned holds [null] for the product, the stored order keeps the
    identifier, and no stock changes. *)
Lemma cancelOrder_missing_product :
  let db := set_products (delete 1%N) (Sample.shop "pending") in
  exists returned db',
    cancelOrder 100%N db = (inr returned, db')
    /\ map PopulatedOrder.productId (PopulatedOrder.products returned)
       = [None]
    /\ (map Order.productId <$> (Order.products <$> db_orders db' !! 100%N))
       = Some [1%N]
    /\ db_products db' = db_products db.
Proof.
  cbv zeta. eexists. eexists. split; [vm_compute; reflexivity |].
  repeat split; vm_compute; reflexivity.
Qed.

(** In terms of one line item: when no other line item of the order refers
    to the same product, cancelling gives the product back exactly the
    quantity of that line item. *)
Lemma cancelOrder_restocks_line_item (orderId : ObjectId) (order : Order.t)
    (db : Db) (item : Order.item) (p : Product.t) :
  db_orders db !! orderId = Some order ->
  Order.status order <> "completed" ->
  Order.status order <> "cancelled" ->
  NoDup (map Order.productId (Order.products order)) ->
  In item (Order.products order) ->
  db_products db !! Order.productId item = Some p ->
  exists p',
    db_products (snd (cancelOrder orderId db)) !! Order.productId item
    = Some p'
    /\ Product.stock p' = Product.stock p + Order.quantity item.
Proof.
  intros Hfind H1 H2 Hnd Hin Hp.
  rewrite (cancelOrder_accepted_run orderId order db Hfind H1 H2).
  cbn -[incAll]. rewrite lookup_incAll, Hp. cbn.
  eexists. split; [reflexivity |].
  fold (orderedQuantity (Order.productId item) (Order.products order)).
  rewrite orderedQuantity_NoDup by assumption. reflexivity.
Qed.

(** [updateOrderStatus] of the service gives an order that exists any of
    the five status values it is asked for, and changes nothing else of the
    order nor any stock; a value outside the five is refused with
    [BAD_REQUEST] and nothing changes. *)
Lemma updateOrderStatus_cases (orderId : ObjectId) (newStatus : string)
    (order : Order.t) (db : Db) :
  db_orders db !! orderId = Some order ->
  (In newStatus Order.statuses ->
   exists saved db',
     updateOrderStatus orderId newStatus db = (inr saved, db')
     /\ Order.status saved = newStatus
     /\ Order.products saved = Order.products order
     /\ Order.totalPrice saved = Order.totalPrice order
     /\ db_orders db' = <[orderId := saved]> (db_orders db)
     /\ db_products db' = db_products db)
  /\ (~ In newStatus Order.statuses ->
      updateOrderStatus orderId newStatus db
      = (inl (ApiError BAD_REQUEST), db)).
Proof.
  intros Hfind. split.
  - intros Hin. apply includes_In in Hin.
    rewrite (updateOrderStatus_accepted_run orderId newStatus order db
               Hfind Hin).
    eexists. eexists. split; [reflexivity |].
    cbn. repeat split; reflexivity.
  - intros Hin. apply (updateOrderStatus_refused_run orderId newStatus order);
      [exact Hfind |].
    apply not_true_is_false. intros E. apply includes_In in E. contradiction.
Qed.

(** The service function holds no guard of its own on the current status:
    called without the handler, it moves a [completed] order back to
    [pending]. *)
Lemma updateOrderStatus_service_unguarded :
  exists saved db',
    Order.status <$> db_orders (Sample.shop "completed") !! 100%N
    = Some "completed"
    /\ updateOrderStatus 100%N "pending" (Sample.shop "completed")
       = (inr saved, db')
    /\ Order.status <$> db_orders db' !! 100%N = Some "pending".
Proof.
  eexists. eexists. split; [reflexivity |].
  split; [vm_compute; reflexivity | vm_compute; reflexivity].
Qed.




(** With that reading of the status, the handler refuses to move the
    completed order of the sample and moves its pending order. *)
Lemma updateOrderStatus_handler_sample :
  orderController.updateOrderStatus Sample.getOrderStatus Sample.notifyClient
    pretty 100%N "pending" (Sample.shop "completed")
  = (inl (ApiError BAD_REQUEST), Sample.shop "completed")
  /\ Order.status
       <$> db_orders
             (snd (orderController.updateOrderStatus Sample.getOrderStatus
                     Sample.notifyClient pretty 100%N "accepted"
                     (Sample.shop "pending"))) !! 100%N
     = Some "accepted".
Proof. split; vm_compute; reflexivity. Qed.

(** ** Delivery acceptance *)

(** C5. For a courier and a delivery that exist: when the delivery is not
    [pending], [acceptDelivery] throws [CONFLICT] and leaves the database as
    it was, no courier assigned; when it is [pending], the delivery is saved
    with status [in_progress] and the courier as its [livreur], the courier
    is saved with the delivery appended to [deliveriesAssigned], and nothing
    else changes. *)
Theorem acceptDelivery_spec (livreurId deliveryId : ObjectId)
    (livreur : Livreur.t) (delivery : Delivery.t) (db : Db) :
  db_livreurs db !! livreurId = Some livreur ->
  db_deliveries db !! deliveryId = Some delivery ->
  (Delivery.status delivery <> "pending" ->
   acceptDelivery livreurId deliveryId db = (inl (ApiError CONFLICT), db))
  /\ (Delivery.status delivery = "pending" ->
      exists saved livreur' db',
        acceptDelivery livreurId deliveryId db = (inr saved, db')
        /\ Delivery.status saved = "in_progress"
        /\ Delivery.livreur saved = Some livreurId
        /\ Delivery.order saved = Delivery.order delivery
        /\ db_deliveries db' = <[deliveryId := saved]> (db_deliveries db)
        /\ Livreur.deliveriesAssigned livreur'
           = Livreur.deliveriesAssigned livreur ++ [deliveryId]
        /\ Livreur.user livreur' = Livreur.user livreur
        /\ Livreur.isAvailable livreur' = Livreur.isAvailable livreur
        /\ db_livreurs db' = <[livreurId := livreur']> (db_livreurs db)
        /\ db_orders db' = db_orders db
        /\ db_products db' = db_products db
        /\ db_promotions db' = db_promotions db).
Proof.
  intros Hl Hd. unfold acceptDelivery.
  assert (Hfl : Livreur_findById livreurId db = (inr (Some livreur), db)).
  { unfold Livreur_findById, get. rewrite Hl. reflexivity. }
  assert (Hfd : Delivery_findById deliveryId db = (inr (Some delivery), db)).
  { unfold Delivery_findById, get. rewrite Hd. reflexivity. }
  rewrite (bind_run _ _ _ _ _ Hfl), (bind_run _ _ _ _ _ Hfd).
  split.
  - intros Hs. apply String.eqb_neq in Hs. rewrite Hs. reflexivity.
  - intros Hs. rewrite Hs. cbn.
    eexists.
    exists {| Livreur.user := Livreur.user livreur;
              Livreur.isAvailable := Livreur.isAvailable livreur;
              Livreur.deliveriesAssigned :=
                Livreur.deliveriesAssigned livreur ++ [deliveryId] |}.
    eexists. split; [reflexivity |].
    cbn. repeat split; reflexivity.
Qed.

(** The theorem at a pending delivery and an idle courier. *)
Lemma acceptDelivery_spec_witness :
  (Delivery.status Sample.delivery <> "pending" ->
   acceptDelivery 300%N 200%N (Sample.shop "pending")
   = (inl (ApiError CONFLICT), Sample.shop "pending"))
  /\ (Delivery.status Sample.delivery = "pending" ->
      exists saved livreur' db',
        acceptDelivery 300%N 200%N (Sample.shop "pending") = (inr saved, db')
        /\ Delivery.status saved = "in_progress"
        /\ Delivery.livreur saved = Some 300%N
        /\ Delivery.order saved = Delivery.order Sample.delivery
        /\ db_deliveries db'
           = <[200%N := saved]> (db_deliveries (Sample.shop "pending"))
        /\ Livreur.deliveriesAssigned livreur'
           = Livreur.deliveriesAssigned Sample.courier ++ [200%N]
        /\ Livreur.user livreur' = Livreur.user Sample.courier
        /\ Livreur.isAvailable livreur' = Livreur.isAvailable Sample.courier
        /\ db_livreurs db'
           = <[300%N := livreur']> (db_livreurs (Sample.shop "pending"))
        /\ db_orders db' = db_orders (Sample.shop "pending")
        /\ db_products db' = db_products (Sample.shop "pending")
        /\ db_promotions db' = db_promotions (Sample.shop "pending")).
Proof.
  apply (acceptDelivery_spec 300%N 200%N Sample.courier Sample.delivery
           (Sample.shop "pending")); reflexivity.
Defined.

(** ** Best-promotion selection *)

(** The order of numbers, as far as the loop of [findBestPromotion] needs
    it. *)
Lemma Pos_compare_cont_Eq (a b : positive) :
  Pos.compare_cont Eq a b = (a ?= b)%positive.
Proof. reflexivity. Qed.

Ltac order_cases :=
  repeat match goal with
    | H : context [Pos.compare_cont Eq ?a ?b] |- _ =>
        rewrite (Pos_compare_cont_Eq a b) in H
    | |- context [Pos.compare_cont Eq ?a ?b] =>
        rewrite (Pos_compare_cont_Eq a b)
    end;
  repeat match goal with
    | H : context [(?a ?= ?b)%Z] |- _ =>
        destruct (Z.compare_spec a b); try discriminate H
    | H : context [(?a ?= ?b)%positive] |- _ =>
        destruct (Pos.compare_spec a b); try discriminate H
    | |- context [(?a ?= ?b)%Z] => destruct (Z.compare_spec a b)
    | |- context [(?a ?= ?b)%positive] => destruct (Pos.compare_spec a b)
    end;
  cbn in *; try reflexivity; try discriminate; try lia.

Lemma gt_trans (x y z : Js.number) :
  Js.gt y x = true -> Js.gt z y = true -> Js.gt z x = true.
Proof.
  unfold Js.gt, SFltb.
  destruct x as [sx | sx | | sx mx ex], y as [sy | sy | | sy my ey],
    z as [sz | sz | | sz mz ez];
    try destruct sx; try destruct sy; try destruct sz;
    cbn; try discriminate; try reflexivity; intros H1 H2; order_cases.
Qed.

Lemma gt_ge_trans (x y z : Js.number) :
  Js.gt y x = true -> Js.ge z y = true -> Js.gt z x = true.
Proof.
  unfold Js.gt, Js.ge, SFltb, SFleb.
  destruct x as [sx | sx | | sx mx ex], y as [sy | sy | | sy my ey],
    z as [sz | sz | | sz mz ez];
    try destruct sx; try destruct sy; try destruct sz;
    cbn; try discriminate; try reflexivity; intros H1 H2; order_cases.
Qed.

Lemma gt_not_ge (x y : Js.number) :
  Js.gt y x = true -> Js.ge x y = false.
Proof.
  unfold Js.gt, Js.ge, SFltb, SFleb.
  destruct x as [sx | sx | | sx mx ex], y as [sy | sy | | sy my ey];
    try destruct sx; try destruct sy;
    cbn; try discriminate; try reflexivity; intros H1; order_cases.
Qed.

(** The promotions the query selects: those of the collection that are
    active and have, among their applicable products, a product of the
    order. *)
Lemma applicablePromotions_In (collection : list Promotion.t)
    (products : list Order.item) (p : Promotion.t) :
  In p (applicablePromotions collection products) <->
  In p collection
  /\ Promotion.isActive p = true
  /\ exists id, In id (Promotion.applicableProducts p)
                /\ In id (map Order.productId products).
Proof.
  unfold applicablePromotions. rewrite filter_In. unfold matchesQuery.
  rewrite andb_true_iff, existsb_exists.
  split.
  - intros (Hin & Ha & id & Hid & Hex). repeat split; try assumption.
    apply existsb_exists in Hex as (id' & Hid' & E).
    apply N.eqb_eq in E. subst. eauto.
  - intros (Hin & Ha & id & Hid & Hid'). repeat split; try assumption.
    exists id. split; [assumption |]. apply existsb_exists.
    exists id. split; [assumption | apply N.eqb_refl].
Qed.

(** The loop of [findBestPromotion], from any state [(b0, m0)]: either no
    promotion of the list has a discount above [m0] and the state is kept,
    or the loop ends on a promotion whose discount is above [m0], which no
    promotion before it reaches and no promotion after it exceeds. *)
Lemma bestStep_fold (products : list Order.item) (l : list Promotion.t)
    (b0 : option Promotion.t) (m0 : Js.number) :
  (Forall (fun q => Js.gt (discountOf products q) m0 = false) l
   /\ fold_left (bestStep products) l (b0, m0) = (b0, m0))
  \/ (exists l1 p l2,
        l = l1 ++ p :: l2
        /\ fold_left (bestStep products) l (b0, m0)
           = (Some p, discountOf products p)
        /\ Js.gt (discountOf products p) m0 = true
        /\ Forall (fun q =>
                     Js.ge (discountOf products q) (discountOf products p)
                     = false) l1
        /\ Forall (fun q =>
                     Js.gt (discountOf products q) (discountOf products p)
                     = false) l2).
Proof.
  revert b0 m0. induction l as [| x l IH]; intros b0 m0.
  - left. split; [constructor | reflexivity].
  - cbn [fold_left]. unfold bestStep at 2 4. cbn [snd].
    destruct (Js.gt (discountOf products x) m0) eqn:E.
    + destruct (IH (Some x) (discountOf products x))
        as [[Hall Hrun] | (l1 & p & l2 & -> & Hrun & Hlt & H1 & H2)].
      * right. exists [], x, l. repeat split; try assumption. constructor.
      * right. exists (x :: l1), p, l2. repeat split; try assumption.
        -- eapply gt_trans; eassumption.
        -- constructor; [| assumption]. apply gt_not_ge. exact Hlt.
    + destruct (IH b0 m0)
        as [[Hall Hrun] | (l1 & p & l2 & -> & Hrun & Hlt & H1 & H2)].
      * left. split; [constructor; assumption | assumption].
      * right. exists (x :: l1), p, l2. repeat split; try assumption.
        constructor; [| assumption].
        destruct (Js.ge (discountOf products x) (discountOf products p))
          eqn:G; [| reflexivity].
        rewrite (gt_ge_trans _ _ _ Hlt G) in E. discriminate.
Qed.

(** C9 as stated fails: a promotion is applicable, and the call returns
    [null], because the one discount there is, 10 percent of a subtotal of
    0, is not above 0. *)
Lemma findBestPromotion_none_on_zero_discount :
  applicablePromotions [Sample.tenPercent] Sample.freeTea
  = [Sample.tenPercent]
  /\ discountOf Sample.freeTea Sample.tenPercent = Js.ofZ 0
  /\ findBestPromotion [Sample.tenPercent] 50%N Sample.freeTea = None.
Proof. repeat split; vm_compute; reflexivity. Qed.

(** C9, amended. Over the promotions that are active and apply to a product
    of the order, taken in the order of the query, the discount of each
    being computed on numbers, [discountValue] percent of the subtotal (the
    sum of [price * quantity], times [discountValue], divided by 100) or
    [discountValue] itself: when some discount is above 0,
    [findBestPromotion] returns the first promotion whose discount is the
    greatest (no earlier one reaches it, no later one exceeds it); when none
    is, it returns [null]. *)
Theorem findBestPromotion_spec (collection : list Promotion.t)
    (userId : ObjectId) (products : list Order.item) :
  let applicable := applicablePromotions collection products in
  let subtotal :=
    fold_left
      (fun sum p =>
         Js.add sum (Js.mul (Js.ofQ (Order.price p)) (Js.ofZ (Order.quantity p))))
      products (Js.ofZ 0) in
  let discount := fun q =>
    match Promotion.discountType q with
    | Promotion.percentage =>
        Js.div (Js.mul subtotal (Js.ofQ (Promotion.discountValue q)))
          (Js.ofZ 100)
    | Promotion.fixed => Js.ofQ (Promotion.discountValue q)
    end in
  (forall p,
     In p applicable <->
     In p collection /\ Promotion.isActive p = true
     /\ exists id, In id (Promotion.applicableProducts p)
                   /\ In id (map Order.productId products))
  /\ ((Forall (fun q => Js.gt (discount q) (Js.ofZ 0) = false) applicable
       /\ findBestPromotion collection userId products = None)
      \/ (exists l1 p l2,
            applicable = l1 ++ p :: l2
            /\ findBestPromotion collection userId products = Some p
            /\ Js.gt (discount p) (Js.ofZ 0) = true
            /\ Forall (fun q => Js.ge (discount q) (discount p) = false) l1
            /\ Forall (fun q => Js.gt (discount q) (discount p) = false) l2)).
Proof.
  cbv zeta. split; [apply applicablePromotions_In |].
  unfold findBestPromotion.
  destruct (bestStep_fold products (applicablePromotions collection products)
              None (Js.ofZ 0))
    as [[Hall Hrun] | (l1 & p & l2 & Happ & Hrun & Hlt & H1 & H2)].
  - left. rewrite Hrun. split; [exact Hall | reflexivity].
  - right. exists l1, p, l2. rewrite Hrun. repeat split; assumption.
Qed.

(** Rounding decides between promotions: on an order of 0.1 and 0.2, ten
    percent of the subtotal is the number 0.030000000000000006, above the
    number 0.03 of the fixed promotion that comes first, and the percentage
    promotion is returned. *)
Lemma findBestPromotion_rounding :
  discountOf Sample.smallChange Sample.threeCents
  = S754_finite false 8646911284551352 (-58)
  /\ discountOf Sample.smallChange Sample.tenPercent
     = S754_finite false 8646911284551354 (-58)
  /\ findBestPromotion [Sample.threeCents; Sample.tenPercent] 50%N
       Sample.smallChange
     = Some Sample.tenPercent.
Proof. repeat split; vm_compute; reflexivity. Qed.

(** * Further properties *)

(** ** Order placement and cancellation together *)

Lemma sample_inStock :
  Forall (inStock Sample.db) (OrderBody.products Sample.twoTeas).
Proof.
  repeat constructor. exists Sample.tea. split; [reflexivity | cbn; lia].
Qed.

Lemma sample_promotionAccepted :
  promotionAccepted Sample.db Sample.now Sample.twoTeas.
Proof. exists Sample.tenPercent. split; reflexivity. Qed.

(** X1. The [totalPrice] that a request declares plays no part: with any
    other declared total, [createOrder] returns the same order or error and
    leaves the same database. *)
Theorem createOrder_ignores_declared_total (now : Date)
    (newId clientId : ObjectId) (body : OrderBody.t) (db : Db) (x : Q) :
  createOrder now newId clientId (OrderBody.set_totalPrice x body) db
  = createOrder now newId clientId body db.
Proof.
  unfold createOrder, applyOrderPromotion, bind, Promotion_findById, get.
  cbn [OrderBody.set_totalPrice OrderBody.products OrderBody.promotion
       OrderBody.totalPrice].
  destruct (checkAvailability (OrderBody.products body) db) as [[e | []] db1];
    [reflexivity |].
  destruct (OrderBody.promotion body) as [id |]; [| reflexivity].
  destruct (db_promotions db1 !! id) as [promo |]; [| reflexivity].
  destruct (negb (Promotion.isValid promo now)); reflexivity.
Qed.

Lemma inc_stock_cancel (q : Z) (o : option Product.t) :
  Product.inc_stock q <$> (Product.inc_stock (- q) <$> o) = o.
Proof.
  destruct o as [p |]; cbn; [| reflexivity].
  rewrite inc_stock_inc_stock. replace (- q + q) with 0 by lia.
  rewrite inc_stock_0. reflexivity.
Qed.

(** X2. Placing an order and then cancelling it gives every product its
    stock back: the products collection is what it was before the order, the
    order stays in the database with status [cancelled] and its line items,
    which is also the status of the order that [cancelOrder] returns, and the
    promotions are untouched. *)
Theorem createOrder_then_cancelOrder (now : Date) (newId clientId : ObjectId)
    (body : OrderBody.t) (db : Db) :
  Forall (inStock db) (OrderBody.products body) ->
  promotionAccepted db now body ->
  exists order db1 returned saved db2,
    createOrder now newId clientId body db = (inr order, db1)
    /\ cancelOrder newId db1 = (inr returned, db2)
    /\ PopulatedOrder.status returned = "cancelled"
    /\ Order.status saved = "cancelled"
    /\ Order.products saved = OrderBody.products body
    /\ db_orders db2 = <[newId := saved]> (db_orders db)
    /\ db_products db2 = db_products db
    /\ db_promotions db2 = db_promotions db.
Proof.
  intros Hall Hacc.
  destruct (createOrder_placed now newId clientId body db Hall Hacc)
    as (order & db1 & Hrun & _ & Hprod & _ & _ & Hstatus & Horders & Hstock
        & Hpromo & _).
  assert (Hfind : db_orders db1 !! newId = Some order).
  { rewrite Horders. apply lookup_insert_eq. }
  assert (H1 : Order.status order <> "completed") by (rewrite Hstatus; discriminate).
  assert (H2 : Order.status order <> "cancelled") by (rewrite Hstatus; discriminate).
  pose proof (cancelOrder_accepted_run newId order db1 Hfind H1 H2) as Hcancel.
  eexists. eexists. eexists.
  exists (Order.preSave (Order.set_status "cancelled" order)). eexists.
  split; [exact Hrun |]. split; [exact Hcancel |].
  cbn -[incAll]. repeat split.
  - exact Hprod.
  - rewrite Horders. apply insert_insert_eq.
  - apply map_eq. intros id. rewrite lookup_incAll, Hstock, Hprod.
    apply inc_stock_cancel.
  - exact Hpromo.
Qed.

Lemma createOrder_then_cancelOrder_witness :
  exists order db1 returned saved db2,
    createOrder Sample.now 100%N 50%N Sample.twoTeas Sample.db
    = (inr order, db1)
    /\ cancelOrder 100%N db1 = (inr returned, db2)
    /\ PopulatedOrder.status returned = "cancelled"
    /\ Order.status saved = "cancelled"
    /\ Order.products saved = OrderBody.products Sample.twoTeas
    /\ db_orders db2 = <[100%N := saved]> (db_orders Sample.db)
    /\ db_products db2 = db_products Sample.db
    /\ db_promotions db2 = db_promotions Sample.db.
Proof.
  apply (createOrder_then_cancelOrder Sample.now 100%N 50%N Sample.twoTeas
           Sample.db).
  - exact sample_inStock.
  - exact sample_promotionAccepted.
Defined.

(** X3. An order is cancelled once: after a cancellation that went through,
    cancelling the same order again throws [BAD_REQUEST] and changes
    nothing, so that the stock is given back one time only. *)
Theorem cancelOrder_twice (orderId : ObjectId) (order : Order.t) (db : Db) :
  db_orders db !! orderId = Some order ->
  Order.status order <> "completed" ->
  Order.status order <> "cancelled" ->
  exists saved db1,
    cancelOrder orderId db = (inr saved, db1)
    /\ cancelOrder orderId db1 = (inl (ApiError BAD_REQUEST), db1).
Proof.
  intros Hfind H1 H2.
  pose proof (cancelOrder_accepted_run orderId order db Hfind H1 H2) as Hrun.
  eexists. eexists. split; [exact Hrun |].
  eapply cancelOrder_refused_run.
  - cbn. apply lookup_insert_eq.
  - right. reflexivity.
Qed.

Lemma cancelOrder_twice_witness :
  exists saved db1,
    cancelOrder 100%N (Sample.shop "pending") = (inr saved, db1)
    /\ cancelOrder 100%N db1 = (inl (ApiError BAD_REQUEST), db1).
Proof.
  apply (cancelOrder_twice 100%N (Sample.order "pending")
           (Sample.shop "pending")).
  - reflexivity.
  - discriminate.
  - discriminate.
Defined.

(** X4. Moving an order to [cancelled] or [completed] through
    [updateOrderStatus] gives no stock back, and closes the way of
    [cancelOrder], which from then on throws [BAD_REQUEST]: the stock the
    order took is not returned by either function. *)
Theorem updateOrderStatus_terminal_keeps_stock (orderId : ObjectId)
    (newStatus : string) (order : Order.t) (db : Db) :
  db_orders db !! orderId = Some order ->
  newStatus = "completed" \/ newStatus = "cancelled" ->
  exists saved db1,
    updateOrderStatus orderId newStatus db = (inr saved, db1)
    /\ Order.status saved = newStatus
    /\ db_products db1 = db_products db
    /\ cancelOrder orderId db1 = (inl (ApiError BAD_REQUEST), db1).
Proof.
  intros Hfind Hnew.
  assert (Hin : includes Order.statuses newStatus = true).
  { destruct Hnew as [-> | ->]; reflexivity. }
  pose proof (updateOrderStatus_accepted_run orderId newStatus order db
                Hfind Hin) as Hrun.
  cbv zeta in Hrun. eexists. eexists. split; [exact Hrun |].
  split; [reflexivity |]. split; [reflexivity |].
  eapply cancelOrder_refused_run.
  - cbn. apply lookup_insert_eq.
  - cbn. exact Hnew.
Qed.

Lemma updateOrderStatus_terminal_keeps_stock_witness :
  exists saved db1,
    updateOrderStatus 100%N "cancelled" (Sample.shop "pending")
    = (inr saved, db1)
    /\ Order.status saved = "cancelled"
    /\ db_products db1 = db_products (Sample.shop "pending")
    /\ cancelOrder 100%N db1 = (inl (ApiError BAD_REQUEST), db1).
Proof.
  apply (updateOrderStatus_terminal_keeps_stock 100%N "cancelled"
           (Sample.order "pending") (Sample.shop "pending")).
  - reflexivity.
  - right. reflexivity.
Defined.

Lemma orderedQuantity_absent (id : ObjectId) (l : list Order.item) :
  ~ In id (map Order.productId l) -> orderedQuantity id l = 0.
Proof.
  unfold orderedQuantity. induction l as [| x l IH]; cbn; intros H;
    [reflexivity |].
  destruct (N.eqb_spec (Order.productId x) id) as [E | E].
  - exfalso. apply H. left. exact E.
  - rewrite IH; [reflexivity |]. intros Hin. apply H. right. exact Hin.
Qed.

(** X6. When no two line items of a request refer to the same product,
    placing the order keeps every stock at or above zero, provided none was
    below zero before. *)
Theorem createOrder_stock_nonneg (now : Date) (newId clientId : ObjectId)
    (body : OrderBody.t) (db : Db) :
  Forall (inStock db) (OrderBody.products body) ->
  promotionAccepted db now body ->
  NoDup (map Order.productId (OrderBody.products body)) ->
  map_Forall (fun _ p => 0 <= Product.stock p) (db_products db) ->
  map_Forall (fun _ p => 0 <= Product.stock p)
    (db_products (snd (createOrder now newId clientId body db))).
Proof.
  intros Hall Hacc Hnd Hpos id p'.
  destruct (createOrder_placed now newId clientId body db Hall Hacc)
    as (order & db' & -> & _ & _ & _ & _ & _ & _ & Hstock & _).
  cbn [snd]. rewrite Hstock.
  destruct (db_products db !! id) as [p |] eqn:Hp; cbn; [| discriminate].
  intros [= <-]. cbn.
  destruct (in_dec N.eq_dec id (map Order.productId (OrderBody.products body)))
    as [Hin | Hout].
  - apply in_map_iff in Hin as (item & <- & Hitem).
    rewrite orderedQuantity_NoDup by assumption.
    rewrite Forall_forall in Hall.
    destruct (Hall item) as (q & Hq & Hle); [apply list_elem_of_In; exact Hitem |].
    rewrite Hp in Hq. injection Hq as <-. lia.
  - rewrite orderedQuantity_absent by assumption.
    specialize (Hpos id p Hp). cbn in Hpos. lia.
Qed.

Lemma createOrder_stock_nonneg_witness :
  map_Forall (fun _ p => 0 <= Product.stock p)
    (db_products
       (snd (createOrder Sample.now 100%N 50%N Sample.twoTeas Sample.db))).
Proof.
  apply (createOrder_stock_nonneg Sample.now 100%N 50%N Sample.twoTeas
           Sample.db).
  - exact sample_inStock.
  - exact sample_promotionAccepted.
  - repeat constructor. intros H. inversion H.
  - intros id p H. cbn in H. apply lookup_singleton_Some in H as [_ <-].
    cbn. lia.
Defined.

Lemma isOrderAvailable_run (orderId : ObjectId) (db : Db) :
  isOrderAvailable orderId db
  = (inr match db_orders db !! orderId with
         | Some order => String.eqb (Order.status order) "pending"
         | None => false
         end, db).
Proof.
  unfold isOrderAvailable, bind, Order_findById, get.
  destruct (db_orders db !! orderId) as [order |]; [| reflexivity].
  destruct (String.eqb (Order.status order) "pending"); reflexivity.
Qed.

(** X7. An order that was just placed is available to couriers; once it is
    cancelled it is not; and an identifier under which there is no order
    gives [false], not an error. [isOrderAvailable] never writes. *)
Theorem isOrderAvailable_lifecycle (now : Date) (newId clientId : ObjectId)
    (body : OrderBody.t) (db : Db) :
  Forall (inStock db) (OrderBody.products body) ->
  promotionAccepted db now body ->
  exists order db1 saved db2,
    createOrder now newId clientId body db = (inr order, db1)
    /\ isOrderAvailable newId db1 = (inr true, db1)
    /\ cancelOrder newId db1 = (inr saved, db2)
    /\ isOrderAvailable newId db2 = (inr false, db2)
    /\ forall other, db_orders db2 !! other = None ->
                     isOrderAvailable other db2 = (inr false, db2).
Proof.
  intros Hall Hacc.
  destruct (createOrder_placed now newId clientId body db Hall Hacc)
    as (order & db1 & Hrun & _ & _ & _ & _ & Hstatus & Horders & _).
  assert (Hfind : db_orders db1 !! newId = Some order).
  { rewrite Horders. apply lookup_insert_eq. }
  assert (H1 : Order.status order <> "completed") by (rewrite Hstatus; discriminate).
  assert (H2 : Order.status order <> "cancelled") by (rewrite Hstatus; discriminate).
  pose proof (cancelOrder_accepted_run newId order db1 Hfind H1 H2) as Hcancel.
  do 4 eexists. split; [exact Hrun |].
  split; [rewrite isOrderAvailable_run, Hfind, Hstatus; reflexivity |].
  split; [exact Hcancel |]. split.
  - rewrite isOrderAvailable_run. cbn. rewrite lookup_insert_eq. reflexivity.
  - intros other Hnone. rewrite isOrderAvailable_run, Hnone. reflexivity.
Qed.

Lemma isOrderAvailable_lifecycle_witness :
  exists order db1 saved db2,
    createOrder Sample.now 100%N 50%N Sample.twoTeas Sample.db
    = (inr order, db1)
    /\ isOrderAvailable 100%N db1 = (inr true, db1)
    /\ cancelOrder 100%N db1 = (inr saved, db2)
    /\ isOrderAvailable 100%N db2 = (inr false, db2)
    /\ forall other, db_orders db2 !! other = None ->
                     isOrderAvailable other db2 = (inr false, db2).
Proof.
  apply (isOrderAvailable_lifecycle Sample.now 100%N 50%N Sample.twoTeas
           Sample.db).
  - exact sample_inStock.
  - exact sample_promotionAccepted.
Defined.

(** X8. The total that [calculateOrderTotal] quotes for the line items of a
    request is the [totalPrice] that [createOrder] saves for it, which is
    also the [revenue] of the saved order; [calculateTotalPrice] on the saved
    order returns that same total and leaves the order as it is. *)
Theorem createOrder_total_agrees (now : Date) (newId clientId : ObjectId)
    (body : OrderBody.t) (db : Db) :
  Forall (inStock db) (OrderBody.products body) ->
  promotionAccepted db now body ->
  exists order db',
    createOrder now newId clientId body db = (inr order, db')
    /\ calculateOrderTotal (OrderBody.products body) db'
       = (inr (Order.totalPrice order), db')
    /\ Order.revenue order = Order.totalPrice order
    /\ Order_calculateTotalPrice order = (Order.totalPrice order, order).
Proof.
  intros Hall Hacc.
  destruct (checkAvailability_cases (OrderBody.products body) db)
    as [[_ Hrun] | [(l1 & it & l2 & Hl & Hl1 & Hit & _)
                   | (l1 & it & l2 & Hl & Hl1 & Hit & _)]].
  - destruct (applyOrderPromotion_cases now body db)
      as [(_ & body' & Hrun' & Hprod & _ & _) | [Hno _]]; [| contradiction].
    unfold createOrder.
    rewrite (bind_run _ _ _ _ _ Hrun), (bind_run _ _ _ _ _ Hrun').
    cbv zeta. unfold Order_create.
    erewrite bind_run by apply Order_save_run.
    erewrite bind_run by apply forOf_incStock.
    eexists. eexists. split; [reflexivity |].
    unfold calculateOrderTotal, Order_calculateTotalPrice, ret.
    cbn -[incAll]. rewrite Hprod. repeat split.
  - exfalso. rewrite Hl in Hall. apply Forall_app in Hall as [_ H].
    apply Forall_cons in H as [H _].
    exact (inStock_not_insufficient _ _ H Hit).
  - exfalso. rewrite Hl in Hall. apply Forall_app in Hall as [_ H].
    apply Forall_cons in H as [H _].
    exact (inStock_not_missing _ _ H Hit).
Qed.

Lemma createOrder_total_agrees_witness :
  exists order db',
    createOrder Sample.now 100%N 50%N Sample.twoTeas Sample.db
    = (inr order, db')
    /\ calculateOrderTotal (OrderBody.products Sample.twoTeas) db'
       = (inr (Order.totalPrice order), db')
    /\ Order.revenue order = Order.totalPrice order
    /\ Order_calculateTotalPrice order = (Order.totalPrice order, order).
Proof.
  apply (createOrder_total_agrees Sample.now 100%N 50%N Sample.twoTeas
           Sample.db).
  - exact sample_inStock.
  - exact sample_promotionAccepted.
Defined.

(** ** The methods of the order model and the order service *)

Lemma not_inStock_test (db : Db) (item : Order.item) :
  ~ inStock db item ->
  match db_products db !! Order.productId item with
  | None => true
  | Some product => Product.stock product <? Order.quantity item
  end = true.
Proof.
  intros H. destruct (db_products db !! Order.productId item) as [p |] eqn:E;
    [| reflexivity].
  apply Z.ltb_lt. destruct (Z_lt_le_dec (Product.stock p) (Order.quantity item));
    [assumption |].
  exfalso. apply H. exists p. split; [exact E | assumption].
Qed.

Lemma inStock_test (db : Db) (item : Order.item) :
  inStock db item ->
  match db_products db !! Order.productId item with
  | None => true
  | Some product => Product.stock product <? Order.quantity item
  end = false.
Proof.
  intros (p & -> & Hle). apply Z.ltb_ge. exact Hle.
Qed.

(** X10. [validateStock] of the order model and the availability loop of
    [createOrder] pass on the same orders, those whose line items are all in
    stock, and neither writes. Where the loop of [createOrder] tells a
    product that does not exist ([NOT_FOUND]) from one short of stock
    ([BAD_REQUEST]), [validateStock] throws the same plain error for both,
    naming the product of the first line item that is not in stock. *)
Theorem validateStock_agrees (toString : ObjectId -> string)
    (this : Order.t) (db : Db) :
  (Order_validateStock toString this db = (inr tt, db)
   <-> checkAvailability (Order.products this) db = (inr tt, db))
  /\ (Forall (inStock db) (Order.products this) ->
      Order_validateStock toString this db = (inr tt, db))
  /\ (forall l1 item l2,
        Order.products this = l1 ++ item :: l2 ->
        Forall (inStock db) l1 -> ~ inStock db item ->
        Order_validateStock toString this db
        = (inl (Error ("Product " +:+ toString (Order.productId item)
                         +:+ " does not have enough stock")), db)).
Proof.
  unfold Order_validateStock.
  assert (Hpass : forall l,
            Forall (inStock db) l ->
            forOf l (fun item =>
              product <- Product_findById (Order.productId item) ;;
              if match product with
                 | None => true
                 | Some product => Product.stock product <? Order.quantity item
                 end
              then throw (Error ("Product " +:+ toString (Order.productId item)
                                   +:+ " does not have enough stock"))
              else ret tt) db = (inr tt, db)).
  { induction l as [| x l IH]; intros Hl; [reflexivity |].
    apply Forall_cons in Hl as [Hx Hl]. cbn [forOf].
    unfold bind at 1 2, Product_findById, get.
    rewrite (inStock_test db x Hx). cbn. apply IH. exact Hl. }
  assert (Hfail : forall l1 item l2,
            Forall (inStock db) l1 -> ~ inStock db item ->
            forOf (l1 ++ item :: l2) (fun item =>
              product <- Product_findById (Order.productId item) ;;
              if match product with
                 | None => true
                 | Some product => Product.stock product <? Order.quantity item
                 end
              then throw (Error ("Product " +:+ toString (Order.productId item)
                                   +:+ " does not have enough stock"))
              else ret tt) db
            = (inl (Error ("Product " +:+ toString (Order.productId item)
                             +:+ " does not have enough stock")), db)).
  { induction l1 as [| x l1 IH]; intros item l2 Hl1 Hitem.
    - cbn [app forOf]. unfold bind at 1 2, Product_findById, get.
      rewrite (not_inStock_test db item Hitem). reflexivity.
    - apply Forall_cons in Hl1 as [Hx Hl1]. cbn [app forOf].
      unfold bind at 1 2, Product_findById, get.
      rewrite (inStock_test db x Hx). cbn. apply IH; assumption. }
  split; [| split].
  - destruct (checkAvailability_cases (Order.products this) db)
      as [[Hall Hrun] | [(l1 & it & l2 & Hl & Hl1 & Hit & Hrun)
                        | (l1 & it & l2 & Hl & Hl1 & Hit & Hrun)]].
    + rewrite Hrun, (Hpass _ Hall). tauto.
    + rewrite Hrun, Hl, Hfail; [split; discriminate | assumption |].
      intros H. exact (inStock_not_insufficient _ _ H Hit).
    + rewrite Hrun, Hl, Hfail; [split; discriminate | assumption |].
      intros H. exact (inStock_not_missing _ _ H Hit).
  - apply Hpass.
  - intros l1 item l2 -> Hl1 Hitem. apply Hfail; assumption.
Qed.

(** X11. On an order that exists, the [updateStatus] method of the order
    model and [updateOrderStatus] of the service leave the same database
    when the new status is one of the five values: the order is stored with
    that status. The service returns the order it saved, the method
    returns nothing. For any other value both refuse and write nothing, the
    method with a plain error and the service with [BAD_REQUEST]. *)
Theorem Order_updateStatus_agrees (orderId : ObjectId) (newStatus : string)
    (order : Order.t) (db : Db) :
  db_orders db !! orderId = Some order ->
  (In newStatus Order.statuses ->
   exists saved db',
     updateOrderStatus orderId newStatus db = (inr saved, db')
     /\ Order_updateStatus orderId order newStatus db = (inr tt, db')
     /\ db_orders db' !! orderId = Some saved
     /\ Order.status saved = newStatus)
  /\ (~ In newStatus Order.statuses ->
      Order_updateStatus orderId order newStatus db
      = (inl (Error "Invalid order status"), db)
      /\ updateOrderStatus orderId newStatus db
         = (inl (ApiError BAD_REQUEST), db)).
Proof.
  intros Hfind. unfold Order_updateStatus. fold Order.statuses. split.
  - intros Hin. apply includes_In in Hin.
    rewrite (updateOrderStatus_accepted_run orderId newStatus order db
               Hfind Hin).
    rewrite Hin. cbn [negb].
    eexists. eexists. split; [reflexivity |]. split.
    + erewrite bind_run by apply Order_save_run. reflexivity.
    + split; [cbn; apply lookup_insert_eq | reflexivity].
  - intros Hin.
    assert (Hno : includes Order.statuses newStatus = false).
    { apply not_true_is_false. intros E. apply includes_In in E.
      contradiction. }
    rewrite Hno. split; [reflexivity |].
    exact (updateOrderStatus_refused_run orderId newStatus order db Hfind Hno).
Qed.

Lemma Order_updateStatus_agrees_witness :
  (In "accepted" Order.statuses ->
   exists saved db',
     updateOrderStatus 100%N "accepted" (Sample.shop "pending")
     = (inr saved, db')
     /\ Order_updateStatus 100%N (Sample.order "pending") "accepted"
          (Sample.shop "pending")
        = (inr tt, db')
     /\ db_orders db' !! 100%N = Some saved
     /\ Order.status saved = "accepted")
  /\ (~ In "accepted" Order.statuses ->
      Order_updateStatus 100%N (Sample.order "pending") "accepted"
        (Sample.shop "pending")
      = (inl (Error "Invalid order status"), Sample.shop "pending")
      /\ updateOrderStatus 100%N "accepted" (Sample.shop "pending")
         = (inl (ApiError BAD_REQUEST), Sample.shop "pending")).
Proof.
  apply (Order_updateStatus_agrees 100%N "accepted" (Sample.order "pending")
           (Sample.shop "pending")).
  reflexivity.
Defined.

(** ** Delivery acceptance through the service and the controller *)

(** The courier with one more delivery in [deliveriesAssigned]. *)
Lemma acceptDelivery_accepted_run (livreurId deliveryId : ObjectId)
    (livreur : Livreur.t) (delivery : Delivery.t) (db : Db) :
  db_livreurs db !! livreurId = Some livreur ->
  db_deliveries db !! deliveryId = Some delivery ->
  Delivery.status delivery = "pending" ->
  let saved :=
    {| Delivery.order := Delivery.order delivery;
       Delivery.livreur := Some livreurId;
       Delivery.status := "in_progress" |} in
  let livreur' :=
    {| Livreur.user := Livreur.user livreur;
       Livreur.isAvailable := Livreur.isAvailable livreur;
       Livreur.deliveriesAssigned :=
         Livreur.deliveriesAssigned livreur ++ [deliveryId] |} in
  acceptDelivery livreurId deliveryId db
  = (inr saved,
     set_livreurs (insert livreurId livreur')
       (set_deliveries (insert deliveryId saved) db)).
Proof.
  intros Hl Hd Hs. cbv zeta. unfold acceptDelivery.
  assert (Hfl : Livreur_findById livreurId db = (inr (Some livreur), db)).
  { unfold Livreur_findById, get. rewrite Hl. reflexivity. }
  assert (Hfd : Delivery_findById deliveryId db = (inr (Some delivery), db)).
  { unfold Delivery_findById, get. rewrite Hd. reflexivity. }
  rewrite (bind_run _ _ _ _ _ Hfl), (bind_run _ _ _ _ _ Hfd).
  rewrite Hs. reflexivity.
Qed.

Lemma acceptDelivery_conflict_run (livreurId deliveryId : ObjectId)
    (livreur : Livreur.t) (delivery : Delivery.t) (db : Db) :
  db_livreurs db !! livreurId = Some livreur ->
  db_deliveries db !! deliveryId = Some delivery ->
  Delivery.status delivery <> "pending" ->
  acceptDelivery livreurId deliveryId db = (inl (ApiError CONFLICT), db).
Proof.
  intros Hl Hd Hs. unfold acceptDelivery.
  assert (Hfl : Livreur_findById livreurId db = (inr (Some livreur), db)).
  { unfold Livreur_findById, get. rewrite Hl. reflexivity. }
  assert (Hfd : Delivery_findById deliveryId db = (inr (Some delivery), db)).
  { unfold Delivery_findById, get. rewrite Hd. reflexivity. }
  rewrite (bind_run _ _ _ _ _ Hfl), (bind_run _ _ _ _ _ Hfd).
  apply String.eqb_neq in Hs. rewrite Hs. reflexivity.
Qed.

Lemma acceptDelivery_not_found_run (livreurId deliveryId : ObjectId) (db : Db) :
  db_livreurs db !! livreurId = None \/ db_deliveries db !! deliveryId = None ->
  acceptDelivery livreurId deliveryId db = (inl (ApiError NOT_FOUND), db).
Proof.
  intros H. unfold acceptDelivery, bind, Livreur_findById, Delivery_findById,
    get.
  destruct H as [-> | ->]; [reflexivity |].
  destruct (db_livreurs db !! livreurId); reflexivity.
Qed.

Lemma isDeliveryAvailable_run (deliveryId : ObjectId) (db : Db) :
  isDeliveryAvailable deliveryId db
  = (inr match db_deliveries db !! deliveryId with
         | None => None
         | Some delivery =>
             Some (String.eqb (Delivery.status delivery) "pending")
         end, db).
Proof. reflexivity. Qed.

(** X12. A delivery is accepted once: after a courier has accepted it, an
    attempt by any courier of the database, the same or another, throws
    [CONFLICT] and changes nothing, and the delivery stays with the first
    courier. *)
Theorem acceptDelivery_once (first second deliveryId : ObjectId)
    (livreur other : Livreur.t) (delivery : Delivery.t) (db : Db) :
  db_livreurs db !! first = Some livreur ->
  db_livreurs db !! second = Some other ->
  db_deliveries db !! deliveryId = Some delivery ->
  Delivery.status delivery = "pending" ->
  exists saved db1,
    acceptDelivery first deliveryId db = (inr saved, db1)
    /\ acceptDelivery second deliveryId db1 = (inl (ApiError CONFLICT), db1)
    /\ db_deliveries db1 !! deliveryId = Some saved
    /\ Delivery.livreur saved = Some first.
Proof.
  intros Hl Ho Hd Hs.
  pose proof (acceptDelivery_accepted_run first deliveryId livreur delivery db
                Hl Hd Hs) as Hrun.
  cbv zeta in Hrun. eexists. eexists. split; [exact Hrun |].
  assert (Hsaved : forall d, <[deliveryId := d]> (db_deliveries db)
                             !! deliveryId = Some d)
    by (intros d; apply lookup_insert_eq).
  split; [| split; [apply Hsaved | reflexivity]].
  destruct (decide (first = second)) as [<- | Hne].
  - eapply acceptDelivery_conflict_run.
    + cbn. apply lookup_insert_eq.
    + cbn. apply Hsaved.
    + discriminate.
  - eapply acceptDelivery_conflict_run.
    + cbn. rewrite lookup_insert_ne by exact Hne. exact Ho.
    + cbn. apply Hsaved.
    + discriminate.
Qed.

Lemma acceptDelivery_once_witness :
  exists saved db1,
    acceptDelivery 300%N 200%N (Sample.shop "pending") = (inr saved, db1)
    /\ acceptDelivery 300%N 200%N db1 = (inl (ApiError CONFLICT), db1)
    /\ db_deliveries db1 !! 200%N = Some saved
    /\ Delivery.livreur saved = Some 300%N.
Proof.
  apply (acceptDelivery_once 300%N 300%N 200%N Sample.courier Sample.courier
           Sample.delivery (Sample.shop "pending")); reflexivity.
Defined.

(** X13. For a courier that exists, [isDeliveryAvailable] is truthy exactly
    when [acceptDelivery] would go through; it yields [null] for a delivery
    that does not exist, [false] for one that is no longer pending, and
    never writes. *)
Theorem isDeliveryAvailable_agrees (livreurId deliveryId : ObjectId)
    (livreur : Livreur.t) (db : Db) :
  db_livreurs db !! livreurId = Some livreur ->
  exists v,
    isDeliveryAvailable deliveryId db = (inr v, db)
    /\ (v = None <-> db_deliveries db !! deliveryId = None)
    /\ (truthy v = true <->
        exists saved db',
          acceptDelivery livreurId deliveryId db = (inr saved, db')).
Proof.
  intros Hl. eexists. split; [apply isDeliveryAvailable_run |].
  destruct (db_deliveries db !! deliveryId) as [delivery |] eqn:Hd.
  - split; [split; discriminate |]. cbn -[acceptDelivery].
    destruct (String.eqb_spec (Delivery.status delivery) "pending") as [Hs | Hs].
    + split; [| reflexivity]. intros _.
      pose proof (acceptDelivery_accepted_run livreurId deliveryId livreur
                    delivery db Hl Hd Hs) as Hrun.
      cbv zeta in Hrun. eauto.
    + split; [discriminate |]. intros (saved & db' & Hrun).
      rewrite (acceptDelivery_conflict_run livreurId deliveryId livreur
                 delivery db Hl Hd Hs) in Hrun. discriminate.
  - split; [tauto |]. cbn -[acceptDelivery]. split; [discriminate |].
    intros (saved & db' & Hrun).
    rewrite acceptDelivery_not_found_run in Hrun by (right; exact Hd).
    discriminate.
Qed.

Lemma isDeliveryAvailable_agrees_witness :
  exists v,
    isDeliveryAvailable 200%N (Sample.shop "pending")
    = (inr v, Sample.shop "pending")
    /\ (v = None <-> db_deliveries (Sample.shop "pending") !! 200%N = None)
    /\ (truthy v = true <->
        exists saved db',
          acceptDelivery 300%N 200%N (Sample.shop "pending")
          = (inr saved, db')).
Proof.
  apply (isDeliveryAvailable_agrees 300%N 200%N Sample.courier
           (Sample.shop "pending")).
  reflexivity.
Defined.

(** X14. Through the controller, a delivery that does not exist or is no
    longer pending is answered with [CONFLICT], whether or not the courier
    exists, where the service alone answers [NOT_FOUND] for a delivery or a
    courier that does not exist; [NOT_FOUND] is left for a pending delivery
    and a courier that does not exist. In all these cases nothing is
    written; in the remaining case the controller does what the service
    does. *)
Theorem controller_acceptDelivery_cases (userId deliveryId : ObjectId)
    (db : Db) :
  (db_deliveries db !! deliveryId = None ->
   livreurController.acceptDelivery userId deliveryId db
   = (inl (ApiError CONFLICT), db)
   /\ acceptDelivery userId deliveryId db = (inl (ApiError NOT_FOUND), db))
  /\ (forall delivery,
        db_deliveries db !! deliveryId = Some delivery ->
        Delivery.status delivery <> "pending" ->
        livreurController.acceptDelivery userId deliveryId db
        = (inl (ApiError CONFLICT), db)
        /\ (db_livreurs db !! userId = None ->
            acceptDelivery userId deliveryId db
            = (inl (ApiError NOT_FOUND), db)))
  /\ (forall delivery,
        db_deliveries db !! deliveryId = Some delivery ->
        Delivery.status delivery = "pending" ->
        livreurController.acceptDelivery userId deliveryId db
        = acceptDelivery userId deliveryId db
        /\ (db_livreurs db !! userId = None ->
            livreurController.acceptDelivery userId deliveryId db
            = (inl (ApiError NOT_FOUND), db))).
Proof.
  unfold livreurController.acceptDelivery.
  rewrite (bind_run _ _ _ _ _ (isDeliveryAvailable_run deliveryId db)).
  split; [| split].
  - intros Hd. rewrite Hd. cbn -[acceptDelivery]. split; [reflexivity |].
    apply acceptDelivery_not_found_run. right. exact Hd.
  - intros delivery Hd Hs. rewrite Hd. apply String.eqb_neq in Hs.
    rewrite Hs. cbn -[acceptDelivery]. split; [reflexivity |].
    intros Hl. apply acceptDelivery_not_found_run. left. exact Hl.
  - intros delivery Hd Hs. rewrite Hd, Hs. cbn -[acceptDelivery].
    split; [reflexivity |].
    intros Hl. apply acceptDelivery_not_found_run. left. exact Hl.
Qed.

(** X15. After a courier has accepted a delivery, [getAssignedDeliveries]
    lists that delivery last, as it was saved (in progress, with the
    courier); for a courier that does not exist it throws [NOT_FOUND]. It
    never writes. *)
Theorem getAssignedDeliveries_after_accept (livreurId deliveryId : ObjectId)
    (livreur : Livreur.t) (delivery : Delivery.t) (db : Db) :
  db_livreurs db !! livreurId = Some livreur ->
  db_deliveries db !! deliveryId = Some delivery ->
  Delivery.status delivery = "pending" ->
  exists saved db1 earlier,
    acceptDelivery livreurId deliveryId db = (inr saved, db1)
    /\ getAssignedDeliveries livreurId db1 = (inr (earlier ++ [saved]), db1)
    /\ Delivery.status saved = "in_progress"
    /\ Delivery.livreur saved = Some livreurId
    /\ forall missing, db_livreurs db1 !! missing = None ->
         getAssignedDeliveries missing db1 = (inl (ApiError NOT_FOUND), db1).
Proof.
  intros Hl Hd Hs.
  pose proof (acceptDelivery_accepted_run livreurId deliveryId livreur delivery
                db Hl Hd Hs) as Hrun.
  cbv zeta in Hrun. eexists. eexists. eexists. split; [exact Hrun |].
  split; [| split; [reflexivity | split; [reflexivity |]]].
  - unfold getAssignedDeliveries, bind, Livreur_findById, get.
    cbn. rewrite lookup_insert_eq. cbn.
    rewrite omap_app. cbn. rewrite lookup_insert_eq. reflexivity.
  - intros missing Hm.
    unfold getAssignedDeliveries, bind, Livreur_findById, get.
    rewrite Hm. reflexivity.
Qed.

Lemma getAssignedDeliveries_after_accept_witness :
  exists saved db1 earlier,
    acceptDelivery 300%N 200%N (Sample.shop "pending") = (inr saved, db1)
    /\ getAssignedDeliveries 300%N db1 = (inr (earlier ++ [saved]), db1)
    /\ Delivery.status saved = "in_progress"
    /\ Delivery.livreur saved = Some 300%N
    /\ forall missing, db_livreurs db1 !! missing = None ->
         getAssignedDeliveries missing db1 = (inl (ApiError NOT_FOUND), db1).
Proof.
  apply (getAssignedDeliveries_after_accept 300%N 200%N Sample.courier
           Sample.delivery (Sample.shop "pending")); reflexivity.
Defined.

(** ** Redemptions in sequence *)






(** ** The keys of the statistics *)

Lemma dashFree_pretty_N_go (x : N) (s : string) :
  dashFree s = true -> dashFree (pretty_N_go x s) = true.
Proof.
  revert s. induction (N.lt_wf_0 x) as [x _ IH]; intros s Hs.
  destruct (N.eq_dec x 0%N) as [-> | Hx].
  - rewrite pretty_N_go_0. exact Hs.
  - rewrite pretty_N_go_step by lia. apply IH.
    + apply N.div_lt; lia.
    + cbn [dashFree]. rewrite Hs, andb_true_r.
      unfold pretty_N_char. repeat case_match; reflexivity.
Qed.

Lemma dashFree_pretty_Z (z : Z) : 0 <= z -> dashFree (pretty z) = true.
Proof.
  intros Hz. destruct z as [| p | p]; [reflexivity | | lia].
  unfold pretty, pretty_Z, pretty, pretty_positive, pretty, pretty_N.
  destruct (decide (N.pos p = 0%N)); [reflexivity |].
  apply dashFree_pretty_N_go. reflexivity.
Qed.

Lemma key_split (a b c d : string) :
  dashFree a = true -> dashFree c = true ->
  a +:+ "-" +:+ b = c +:+ "-" +:+ d -> a = c /\ b = d.
Proof.
  revert c. induction a as [| x a IH]; intros [| y c] Ha Hc E; cbn in *.
  - injection E as E. subst. auto.
  - injection E as Ey _. subst y. discriminate.
  - injection E as Ex _. subst x. discriminate.
  - injection E as Ex E. subst y.
    apply andb_true_iff in Ha as [_ Ha]. apply andb_true_iff in Hc as [_ Hc].
    destruct (IH c Ha Hc E) as [E1 E2]. subst. auto.
Qed.

(** X19. For dates of years from 0 on: two dates have the same yearly key
    exactly when they are of the same year, and the same monthly key exactly
    when they are of the same year and month, so that the monthly and yearly
    counters of different periods are kept apart. Two dates have the same
    weekly key exactly when they are of the same year and the same week of
    their month, whatever their months. *)
Theorem period_keys (d1 d2 : Date) :
  0 <= getFullYear d1 -> 0 <= getFullYear d2 ->
  (Promotion.currentYear d1 = Promotion.currentYear d2
   <-> getFullYear d1 = getFullYear d2)
  /\ (Promotion.currentMonth d1 = Promotion.currentMonth d2
      <-> getFullYear d1 = getFullYear d2 /\ getMonth d1 = getMonth d2)
  /\ (Promotion.currentWeek d1 = Promotion.currentWeek d2
      <-> getFullYear d1 = getFullYear d2
          /\ Promotion.weekOfMonth d1 = Promotion.weekOfMonth d2).
Proof.
  intros H1 H2.
  unfold Promotion.currentYear, Promotion.currentMonth, Promotion.currentWeek.
  split; [| split].
  - split; [apply pretty_Z_inj | intros ->; reflexivity].
  - split.
    + intros E.
      apply key_split in E as [Ey Em]; try (apply dashFree_pretty_Z; assumption).
      apply pretty_Z_inj in Ey. apply pretty_Z_inj in Em. split; lia.
    + intros [-> ->]. reflexivity.
  - split.
    + intros E.
      apply key_split in E as [Ey Ew]; try (apply dashFree_pretty_Z; assumption).
      apply pretty_Z_inj in Ey. apply pretty_Z_inj in Ew. split; assumption.
    + intros [-> ->]. reflexivity.
Qed.

(** At 3 February and 2 November 2026: one weekly key, two monthly keys. *)
Lemma period_keys_witness :
  (Promotion.currentYear Sample.feb3 = Promotion.currentYear Sample.now
   <-> getFullYear Sample.feb3 = getFullYear Sample.now)
  /\ (Promotion.currentMonth Sample.feb3 = Promotion.currentMonth Sample.now
      <-> getFullYear Sample.feb3 = getFullYear Sample.now
          /\ getMonth Sample.feb3 = getMonth Sample.now)
  /\ (Promotion.currentWeek Sample.feb3 = Promotion.currentWeek Sample.now
      <-> getFullYear Sample.feb3 = getFullYear Sample.now
          /\ Promotion.weekOfMonth Sample.feb3
             = Promotion.weekOfMonth Sample.now).
Proof.
  apply (period_keys Sample.feb3 Sample.now); cbn; lia.
Defined.

(** ** Promotions switched off or deleted, and the orders that use them *)

Lemma checkAvailability_pass (l : list Order.item) (db : Db) :
  Forall (inStock db) l -> checkAvailability l db = (inr tt, db).
Proof.
  intros Hall.
  destruct (checkAvailability_cases l db)
    as [[_ Hrun] | [(l1 & it & l2 & Hl & Hl1 & Hit & _)
                   | (l1 & it & l2 & Hl & Hl1 & Hit & _)]];
    [exact Hrun | exfalso ..];
    rewrite Hl in Hall; apply Forall_app in Hall as [_ H];
    apply Forall_cons in H as [H _].
  - exact (inStock_not_insufficient _ _ H Hit).
  - exact (inStock_not_missing _ _ H Hit).
Qed.

Lemma inStock_same_products (db db' : Db) (item : Order.item) :
  db_products db' = db_products db -> inStock db item -> inStock db' item.
Proof. unfold inStock. intros ->. auto. Qed.

(** With every line item in stock, what [createOrder] answers to a request
    whose promotion does not exist or is not valid. *)
Lemma createOrder_promotion_refused (now : Date) (newId clientId id : ObjectId)
    (body : OrderBody.t) (db : Db) :
  Forall (inStock db) (OrderBody.products body) ->
  OrderBody.promotion body = Some id ->
  (db_promotions db !! id = None ->
   createOrder now newId clientId body db = (inl (ApiError NOT_FOUND), db))
  /\ (forall promo,
        db_promotions db !! id = Some promo ->
        Promotion.isValid promo now = false ->
        createOrder now newId clientId body db
        = (inl (ApiError BAD_REQUEST), db)).
Proof.
  intros Hall Hid. unfold createOrder.
  rewrite (bind_run _ _ _ _ _ (checkAvailability_pass _ _ Hall)).
  unfold applyOrderPromotion. rewrite Hid.
  unfold bind, Promotion_findById, get. split.
  - intros ->. reflexivity.
  - intros promo -> ->. reflexivity.
Qed.











(** A promotion that expired in February cannot be switched off in
    November: the call throws and the promotion stays active. *)
Lemma togglePromotionStatus_expired_sample :
  let db := set_promotions (insert 8%N Sample.expired) Sample.db in
  togglePromotionStatus Sample.now 8%N false db = (inl ValidationError, db)
  /\ Promotion.isActive <$> db_promotions db !! 8%N = Some true.
Proof. split; vm_compute; reflexivity. Qed.

(** X21. Once a promotion is deleted, a request that names it is refused
    with [NOT_FOUND] and nothing is written, and deleting it a second time
    throws [NOT_FOUND] as well; the other promotions are kept. *)
Theorem deletePromotion_blocks_orders (now : Date)
    (newId clientId id : ObjectId) (body : OrderBody.t) (db : Db)
    (promo : Promotion.t) :
  db_promotions db !! id = Some promo ->
  OrderBody.promotion body = Some id ->
  Forall (inStock db) (OrderBody.products body) ->
  exists db1,
    deletePromotion id db = (inr tt, db1)
    /\ db_promotions db1 = delete id (db_promotions db)
    /\ createOrder now newId clientId body db1
       = (inl (ApiError NOT_FOUND), db1)
    /\ deletePromotion id db1 = (inl (ApiError NOT_FOUND), db1).
Proof.
  intros Hfind Hid Hall.
  assert (Hrun : deletePromotion id db
                 = (inr tt, set_promotions (delete id) db)).
  { unfold deletePromotion, bind, Promotion_findById, get.
    rewrite Hfind. reflexivity. }
  eexists. split; [exact Hrun |]. split; [reflexivity |]. split.
  - assert (Hall1 : Forall (inStock (set_promotions (delete id) db))
                      (OrderBody.products body)).
    { eapply Forall_impl; [exact Hall |]. intros item.
      apply inStock_same_products. reflexivity. }
    apply (proj1 (createOrder_promotion_refused now newId clientId id body _
                    Hall1 Hid)).
    cbn. apply lookup_delete_eq.
  - unfold deletePromotion, bind, Promotion_findById, get. cbn.
    rewrite lookup_delete_eq. reflexivity.
Qed.

Lemma deletePromotion_blocks_orders_witness :
  exists db1,
    deletePromotion 7%N Sample.db = (inr tt, db1)
    /\ db_promotions db1 = delete 7%N (db_promotions Sample.db)
    /\ createOrder Sample.now 100%N 50%N Sample.twoTeas db1
       = (inl (ApiError NOT_FOUND), db1)
    /\ deletePromotion 7%N db1 = (inl (ApiError NOT_FOUND), db1).
Proof.
  apply (deletePromotion_blocks_orders Sample.now 100%N 50%N 7%N
           Sample.twoTeas Sample.db Sample.tenPercent).
  - reflexivity.
  - reflexivity.
  - exact sample_inStock.
Defined.

(** ** What the selection and the report of promotions look at *)

Lemma bestStep_fold_map (f : Promotion.t -> Promotion.t)
    (products : list Order.item) (l : list Promotion.t)
    (b : option Promotion.t) (m : Js.number) :
  (forall p, discountOf products (f p) = discountOf products p) ->
  fold_left (bestStep products) (map f l) (f <$> b, m)
  = (f <$> fst (fold_left (bestStep products) l (b, m)),
     snd (fold_left (bestStep products) l (b, m))).
Proof.
  intros Hd. revert b m. induction l as [| x l IH]; intros b m;
    [reflexivity |].
  cbn [map fold_left]. unfold bestStep at 2 4 6. cbn [snd]. rewrite Hd.
  destruct (Js.gt (discountOf products x) m).
  - apply (IH (Some x)).
  - apply IH.
Qed.

(** X22. [findBestPromotion] looks at the active flag, the applicable
    products, the type and the value of a promotion, and at nothing else:
    changing anything else in the promotions of the collection, such as
    [usedCount], [usageLimit] or [expirationDate], changes the promotion
    returned in the same way and not the choice. The promotion it returns
    may thus be one that [isValid] rejects. *)
Theorem findBestPromotion_ignores_validity (f : Promotion.t -> Promotion.t)
    (collection : list Promotion.t) (userId : ObjectId)
    (products : list Order.item) :
  (forall p,
     Promotion.isActive (f p) = Promotion.isActive p
     /\ Promotion.applicableProducts (f p) = Promotion.applicableProducts p
     /\ Promotion.discountType (f p) = Promotion.discountType p
     /\ Promotion.discountValue (f p) = Promotion.discountValue p) ->
  findBestPromotion (map f collection) userId products
  = f <$> findBestPromotion collection userId products.
Proof.
  intros Hf. unfold findBestPromotion.
  assert (Happ : applicablePromotions (map f collection) products
                 = map f (applicablePromotions collection products)).
  { unfold applicablePromotions.
    induction collection as [| p l IH]; [reflexivity |]. cbn [map List.filter].
    assert (E : matchesQuery (map Order.productId products) (f p)
                = matchesQuery (map Order.productId products) p).
    { unfold matchesQuery. destruct (Hf p) as (-> & -> & _). reflexivity. }
    rewrite E, IH. destruct (matchesQuery _ p); reflexivity. }
  rewrite Happ.
  change (None, Js.ofZ 0)
    with (f <$> (None : option Promotion.t), Js.ofZ 0) at 1.
  rewrite bestStep_fold_map; [reflexivity |].
  intros p. unfold discountOf. destruct (Hf p) as (_ & _ & -> & ->).
  reflexivity.
Qed.

(** With every promotion of the collection used up to its limit, the choice
    is the same, and the promotion returned is valid at no date. *)
Lemma findBestPromotion_ignores_validity_witness :
  findBestPromotion (map exhausted [Sample.tenPercent]) 50%N
    (OrderBody.products Sample.twoTeas)
  = exhausted <$> findBestPromotion [Sample.tenPercent] 50%N
                    (OrderBody.products Sample.twoTeas).
Proof.
  apply (findBestPromotion_ignores_validity exhausted [Sample.tenPercent]
           50%N (OrderBody.products Sample.twoTeas)).
  intros p. repeat split.
Defined.

Lemma exhausted_not_valid (this : Promotion.t) (now : Date) :
  Promotion.isValid (exhausted this) now = false.
Proof.
  unfold Promotion.isValid, exhausted. cbn.
  rewrite Z.gtb_ltb, Z.ltb_irrefl, andb_false_r. reflexivity.
Qed.

(** X23. When the threshold of [days] days from now is a date,
    [getExpiringPromotions] returns the active promotions whose expiration
    date is at or before it, never one without expiration date nor one that
    is switched off. It sets no lower bound: a promotion that is still
    active and has already expired is returned, for any number of days from
    0 on, though [isValid] rejects it; and with more days nothing that was
    returned is lost, as long as the threshold is still a date. When the
    threshold is beyond the dates that [Date] holds, the call throws a
    [CastError]. *)
Theorem getExpiringPromotions_spec (collection : list Promotion.t)
    (now : Date) (days : Z) :
  let threshold := getTime now + days * 86400000 in
  (- 8640000000000000 <= threshold <= 8640000000000000 ->
   exists found,
     getExpiringPromotions collection now days = inr found
     /\ (forall p,
           In p found <->
           In p collection /\ Promotion.isActive p = true
           /\ exists e, Promotion.expirationDate p = Some e /\ e <= threshold)
     /\ (forall p e,
           In p collection -> Promotion.isActive p = true ->
           Promotion.expirationDate p = Some e -> e < getTime now ->
           0 <= days ->
           In p found /\ Promotion.isValid p now = false)
     /\ (forall days',
           days <= days' ->
           getTime now + days' * 86400000 <= 8640000000000000 ->
           exists found',
             getExpiringPromotions collection now days' = inr found'
             /\ forall p, In p found -> In p found'))
  /\ (threshold < - 8640000000000000 \/ 8640000000000000 < threshold ->
      getExpiringPromotions collection now days = inl CastError).
Proof.
  assert (Hrun : forall d,
            - 8640000000000000 <= getTime now + d * 86400000
            <= 8640000000000000 ->
            exists found,
              getExpiringPromotions collection now d = inr found
              /\ forall p,
                   In p found <->
                   In p collection /\ Promotion.isActive p = true
                   /\ exists e, Promotion.expirationDate p = Some e
                                /\ e <= getTime now + d * 86400000).
  { intros d Hd. unfold getExpiringPromotions. cbv zeta.
    replace (getTime now + d * 24 * 60 * 60 * 1000)
      with (getTime now + d * 86400000) by lia.
    replace (Date_valid (getTime now + d * 86400000)) with true.
    2:{ symmetry. unfold Date_valid. apply andb_true_iff.
        split; apply Z.leb_le; lia. }
    eexists. split; [reflexivity |]. intros p.
    rewrite filter_In, andb_true_iff.
    destruct (Promotion.expirationDate p) as [e |].
    - rewrite Z.leb_le. split.
      + intros (H1 & H2 & H3). eauto.
      + intros (H1 & H2 & e' & [= <-] & H3). auto.
    - split.
      + intros (_ & _ & H). discriminate.
      + intros (_ & _ & e & H & _). discriminate. }
  cbv zeta. split.
  - intros Hd. destruct (Hrun days Hd) as (found & Hfound & Hin).
    exists found. split; [exact Hfound |]. split; [exact Hin |]. split.
    + intros p e Hp Ha He Hlt Hdays. split.
      * apply Hin. repeat split; try assumption. exists e.
        split; [assumption | lia].
      * unfold Promotion.isValid. rewrite He.
        apply andb_false_intro2. apply Z.leb_gt. exact Hlt.
    + intros days' Hle Hd'.
      destruct (Hrun days') as (found' & Hfound' & Hin'); [lia |].
      exists found'. split; [exact Hfound' |].
      intros p Hp. apply Hin in Hp as (H1 & H2 & e & He & Hb).
      apply Hin'. repeat split; try assumption. exists e.
      split; [assumption | lia].
  - intros Hout. unfold getExpiringPromotions. cbv zeta.
    replace (getTime now + days * 24 * 60 * 60 * 1000)
      with (getTime now + days * 86400000) by lia.
    replace (Date_valid (getTime now + days * 86400000)) with false;
      [reflexivity |].
    symmetry. unfold Date_valid. apply andb_false_iff.
    destruct Hout as [H | H]; [left | right]; apply Z.leb_gt; lia.
Qed.

(** At the clock of the sample: the promotion that expired in February is
    reported for a week ahead, and a number of days that takes the threshold
    past the last date makes the call throw. *)
Lemma getExpiringPromotions_sample :
  getExpiringPromotions [Sample.tenPercent; Sample.expired] Sample.now 7
  = inr [Sample.expired]
  /\ getExpiringPromotions [Sample.expired] Sample.now 99979242
     = inl CastError
  /\ getExpiringPromotions [Sample.expired] Sample.now 99979241
     = inr [Sample.expired].
Proof. repeat split; vm_compute; reflexivity. Qed.

(** ** Deactivated products *)

(** X24. [createOrder] does not look at the active flag of a product: after
    its merchant has deactivated a product, which [isAvailable] then reports
    as not available, a request that was acceptable is still accepted, and
    takes the same stock. For a product of another merchant
    [deactivateProduct] throws [NOT_FOUND] and writes nothing. *)
Theorem deactivateProduct_still_orderable (now : Date)
    (newId clientId merchantId productId : ObjectId) (body : OrderBody.t)
    (db : Db) (product : Product.t) :
  db_products db !! productId = Some product ->
  Forall (inStock db) (OrderBody.products body) ->
  promotionAccepted db now body ->
  (Product.merchant product <> merchantId ->
   deactivateProduct merchantId productId db = (inl (ApiError NOT_FOUND), db))
  /\ (Product.merchant product = merchantId ->
      exists saved db1 order db2,
        deactivateProduct merchantId productId db = (inr saved, db1)
        /\ Product.isActive saved = false
        /\ Product.stock saved = Product.stock product
        /\ Product_isAvailable saved = false
        /\ db_products db1 !! productId = Some saved
        /\ createOrder now newId clientId body db1 = (inr order, db2)
        /\ Order.products order = OrderBody.products body
        /\ forall id,
             Product.stock <$> db_products db2 !! id
             = (fun s => s - orderedQuantity id (OrderBody.products body))
                 <$> (Product.stock <$> db_products db !! id)).
Proof.
  intros Hfind Hall Hacc. split.
  - intros Hm. unfold deactivateProduct, bind, Product_findOwned, get.
    rewrite Hfind. apply N.eqb_neq in Hm. rewrite Hm. reflexivity.
  - intros Hm.
    set (saved := Product_set_isActive false product).
    set (db1 := set_products (insert productId saved) db).
    assert (Hrun : deactivateProduct merchantId productId db = (inr saved, db1)).
    { unfold deactivateProduct, bind, Product_findOwned, get.
      rewrite Hfind. apply N.eqb_eq in Hm. rewrite Hm. reflexivity. }
    assert (Hlook : forall id,
              Product.stock <$> db_products db1 !! id
              = Product.stock <$> db_products db !! id).
    { intros id. cbn. rewrite lookup_insert.
      destruct (decide (productId = id)) as [<- | Hne]; [| reflexivity].
      rewrite Hfind. reflexivity. }
    assert (Hall1 : Forall (inStock db1) (OrderBody.products body)).
    { eapply Forall_impl; [exact Hall |]. intros item (p & Hp & Hle).
      specialize (Hlook (Order.productId item)). rewrite Hp in Hlook.
      destruct (db_products db1 !! Order.productId item) as [p1 |] eqn:Hp1;
        [| discriminate].
      injection Hlook as Hs. exists p1. split; [exact Hp1 | lia]. }
    destruct (createOrder_placed now newId clientId body db1 Hall1 Hacc)
      as (order & db2 & Hplaced & _ & Hprod & _ & _ & _ & _ & Hstock & _).
    exists saved, db1, order, db2.
    split; [exact Hrun |]. split; [reflexivity |]. split; [reflexivity |].
    split; [apply andb_false_r |].
    split; [cbn; apply lookup_insert_eq |].
    split; [exact Hplaced |]. split; [exact Hprod |].
    intros id. rewrite Hstock, <- Hlook.
    destruct (db_products db1 !! id) as [p1 |]; reflexivity.
Qed.

Lemma deactivateProduct_still_orderable_witness :
  (Product.merchant Sample.tea <> 9%N ->
   deactivateProduct 9%N 1%N Sample.db = (inl (ApiError NOT_FOUND), Sample.db))
  /\ (Product.merchant Sample.tea = 9%N ->
      exists saved db1 order db2,
        deactivateProduct 9%N 1%N Sample.db = (inr saved, db1)
        /\ Product.isActive saved = false
        /\ Product.stock saved = Product.stock Sample.tea
        /\ Product_isAvailable saved = false
        /\ db_products db1 !! 1%N = Some saved
        /\ createOrder Sample.now 100%N 50%N Sample.twoTeas db1
           = (inr order, db2)
        /\ Order.products order = OrderBody.products Sample.twoTeas
        /\ forall id,
             Product.stock <$> db_products db2 !! id
             = (fun s => s - orderedQuantity id
                               (OrderBody.products Sample.twoTeas))
                 <$> (Product.stock <$> db_products Sample.db !! id)).
Proof.
  apply (deactivateProduct_still_orderable Sample.now 100%N 50%N 9%N 1%N
           Sample.twoTeas Sample.db Sample.tea).
  - reflexivity.
  - exact sample_inStock.
  - exact sample_promotionAccepted.
Defined.

(** ** The distance of a delivery *)

Section DistanceProperties.
Local Open Scope R_scope.











End DistanceProperties.
